(** * confidence-backend: the catalogue API
    ([server.js] and [routes/products.js])

    A shallow embedding of the Express handlers: registration and login,
    product create / update / delete, and the two product listings.

    Conventions of the embedding.
    - A JavaScript string is the [string] of the bytes of its UTF-8
      encoding.  White space is the whole JavaScript set; letter case is
      the ASCII one.
    - A JavaScript number is a [JsNum]: [NaN], an infinity, or an exact
      rational.  The rounding of IEEE doubles is not represented, and
      [-0] is identified with [0] (both serialise to [0] in JSON).
    - A request field is an [option string]: [None] is [undefined].
    - A handler is a function from the state of the stores (a [World])
      and a request to a response and a new state.  [await] is
      sequencing; a thrown exception is the [inl] of a sum and is caught
      by the handler's [catch] block. *)

From Stdlib Require Import String Ascii List Bool ZArith Lia.
From Stdlib Require Import QArith Qround Qreduction Qcanon.
From Stdlib Require Import Sorted.
Import ListNotations.

Local Open Scope string_scope.
Local Open Scope Z_scope.

(* ================================================================== *)
(** ** JavaScript values                                              *)
(* ================================================================== *)

Module Js.

(** Numbers. *)
Inductive JsNum : Type :=
| NaN : JsNum
| Infinity (negative : bool) : JsNum
| Fin (q : Q) : JsNum.

Definition Int (n : Z) : JsNum := Fin (inject_Z n).

Definition isNaN (x : JsNum) : bool :=
  match x with NaN => true | _ => false end.

Definition Qis_zero (q : Q) : bool := Qnum q =? 0.
Definition Qis_neg (q : Q) : bool := Qnum q <? 0.

(** [x - y], [x * y] and [x / y] on numbers. *)
Definition sub (x y : JsNum) : JsNum :=
  match x, y with
  | NaN, _ | _, NaN => NaN
  | Infinity a, Infinity b => if Bool.eqb a b then NaN else Infinity a
  | Infinity a, Fin _ => Infinity a
  | Fin _, Infinity b => Infinity (negb b)
  | Fin p, Fin q => Fin (Qred (p - q))
  end.

Definition mul (x y : JsNum) : JsNum :=
  match x, y with
  | NaN, _ | _, NaN => NaN
  | Infinity a, Infinity b => Infinity (xorb a b)
  | Infinity a, Fin q | Fin q, Infinity a =>
      if Qis_zero q then NaN else Infinity (xorb a (Qis_neg q))
  | Fin p, Fin q => Fin (Qred (p * q))
  end.

Definition div (x y : JsNum) : JsNum :=
  match x, y with
  | NaN, _ | _, NaN => NaN
  | Infinity _, Infinity _ => NaN
  | Infinity a, Fin q => Infinity (xorb a (Qis_neg q))
  | Fin _, Infinity _ => Int 0
  | Fin p, Fin q =>
      if Qis_zero q
      then (if Qis_zero p then NaN else Infinity (Qis_neg p))
      else Fin (Qred (p / q))
  end.

(** [Math.ceil]. *)
Definition Math_ceil (x : JsNum) : JsNum :=
  match x with
  | Fin q => Int (Qceiling q)
  | _ => x
  end.

(** A value bound by destructuring with a numeric default, as in
    [const { page = 1, limit = 9 } = req.query]: absent, a string of the
    query, or the integer literal of the default. *)
Inductive JsVal : Type :=
| VUndef : JsVal
| VStr (s : string) : JsVal
| VInt (n : Z) : JsVal.

Definition of_param (p : option string) : JsVal :=
  match p with None => VUndef | Some s => VStr s end.

(** [const { x = d } = obj]: the default applies to [undefined] only. *)
Definition with_default (d : Z) (p : option string) : JsVal :=
  match p with None => VInt d | Some s => VStr s end.

(** Truthiness of a request field: [undefined] and [""] are falsy. *)
Definition truthy (p : option string) : bool :=
  match p with
  | None => false
  | Some s => negb (String.eqb s "")
  end.

(** *** Scanning characters *)

(** White space, as [trim], [parseInt] and [parseFloat] skip it: the
    white space and the line terminators of the language.  Those of
    ASCII are one byte: tab, line feed, vertical tab, form feed,
    carriage return and space. *)
Definition is_ws (c : ascii) : bool :=
  match nat_of_ascii c with
  | 9%nat | 10%nat | 11%nat | 12%nat | 13%nat | 32%nat => true
  | _ => false
  end.

(** The others, by the bytes of their encoding.  Two bytes: U+00A0. *)
Definition is_ws2 (a b : ascii) : bool :=
  (N_of_ascii a =? 194)%N && (N_of_ascii b =? 160)%N.

(** Three bytes: U+1680, U+2000 to U+200A, U+2028, U+2029, U+202F,
    U+205F, U+3000 and U+FEFF. *)
Definition is_ws3 (a b c : ascii) : bool :=
  let x := N_of_ascii a in
  let y := N_of_ascii b in
  let z := N_of_ascii c in
  ((x =? 225) && (y =? 154) && (z =? 128) ||
   (x =? 226) && (y =? 128) &&
     ((128 <=? z) && (z <=? 138) || (z =? 168) || (z =? 169) || (z =? 175)) ||
   (x =? 226) && (y =? 129) && (z =? 159) ||
   (x =? 227) && (y =? 128) && (z =? 128) ||
   (x =? 239) && (y =? 187) && (z =? 191))%N.

(** [s] without the white space at its head.  With [back] the bytes of
    [s] are read in reverse order: those of a string from its end. *)
Fixpoint drop_ws (back : bool) (s : string) : string :=
  match s with
  | EmptyString => s
  | String a r =>
      if is_ws a then drop_ws back r
      else
        match r with
        | EmptyString => s
        | String b r1 =>
            if (if back then is_ws2 b a else is_ws2 a b)
            then drop_ws back r1
            else
              match r1 with
              | EmptyString => s
              | String c r2 =>
                  if (if back then is_ws3 c b a else is_ws3 a b c)
                  then drop_ws back r2
                  else s
              end
        end
  end.

Definition trim_start (s : string) : string := drop_ws false s.

Definition rev_string (s : string) : string :=
  string_of_list_ascii (rev (list_ascii_of_string s)).

Definition trim_end (s : string) : string :=
  rev_string (drop_ws true (rev_string s)).

(** [String.prototype.trim]. *)
Definition trim (s : string) : string := trim_end (trim_start s).

(** The value of a character as a digit of a radix up to 36. *)
Definition digit_val (c : ascii) : option Z :=
  let n := Z.of_nat (nat_of_ascii c) in
  if (48 <=? n) && (n <=? 57) then Some (n - 48)
  else if (97 <=? n) && (n <=? 122) then Some (n - 87)
  else if (65 <=? n) && (n <=? 90) then Some (n - 55)
  else None.

Definition radix_digit (R : Z) (c : ascii) : option Z :=
  match digit_val c with
  | Some d => if d <? R then Some d else None
  | None => None
  end.

(** The longest prefix of [s] made of digits of radix [R], as the list
    of the digits' values, and the rest of [s]. *)
Fixpoint take_digits (R : Z) (s : string) : list Z * string :=
  match s with
  | String c r =>
      match radix_digit R c with
      | Some d => let (ds, rest) := take_digits R r in (d :: ds, rest)
      | None => ([], s)
      end
  | EmptyString => ([], s)
  end.

Definition digits_value (R : Z) (ds : list Z) : Z :=
  fold_left (fun acc d => acc * R + d) ds 0.

(** An optional sign: the factor and the rest. *)
Definition take_sign (s : string) : Z * string :=
  match s with
  | String "-" r => (-1, r)
  | String "+" r => (1, r)
  | _ => (1, s)
  end.

(** *** [parseInt(v)] with no radix argument *)

Definition parseInt_string (input : string) : JsNum :=
  let (sign, s1) := take_sign (trim_start input) in
  let (R, s2) :=
    match s1 with
    | String "0" (String "x" r) => (16, r)
    | String "0" (String "X" r) => (16, r)
    | _ => (10, s1)
    end in
  match fst (take_digits R s2) with
  | [] => NaN
  | ds => Int (sign * digits_value R ds)
  end.

(** [parseInt] first converts its argument to a string: [undefined]
    becomes ["undefined"], and an integer literal its decimal digits,
    which [parseInt] reads back whole. *)
Definition parseInt (v : JsVal) : JsNum :=
  match v with
  | VUndef => parseInt_string "undefined"
  | VStr s => parseInt_string s
  | VInt n => Int n
  end.

(** *** Decimal literals ([StrDecimalLiteral]) *)

(** The exponent part [e], [e+], [e-] followed by at least one digit;
    when it is incomplete nothing is consumed. *)
Definition take_exponent (s : string) : Z * string :=
  match s with
  | String c r =>
      if (Ascii.eqb c "e" || Ascii.eqb c "E")%bool then
        let (sg, r1) := take_sign r in
        match take_digits 10 r1 with
        | ([], _) => (0, s)
        | (ds, rest) => (sg * digits_value 10 ds, rest)
        end
      else (0, s)
  | EmptyString => (0, s)
  end.

Definition pow10 (e : Z) : Q :=
  if 0 <=? e then inject_Z (10 ^ e) else Qinv (inject_Z (10 ^ (- e))).

(** The longest prefix of [s] that is a decimal literal, with its value
    and the rest of [s]; [None] when no prefix is one. *)
Definition take_decimal (s : string) : option (JsNum * string) :=
  let (sign, s1) := take_sign s in
  match s1 with
  | String "I" (String "n" (String "f" (String "i" (String "n"
      (String "i" (String "t" (String "y" rest))))))) =>
      Some (Infinity (sign <? 0), rest)
  | _ =>
      let (ip, s2) := take_digits 10 s1 in
      let (fp, s3) :=
        match s2 with
        | String "." r => take_digits 10 r
        | _ => ([], s2)
        end in
      match ip, fp with
      | [], [] => None
      | _, _ =>
          let (e, s4) := take_exponent s3 in
          let mant := digits_value 10 (ip ++ fp) in
          let scale := e - Z.of_nat (length fp) in
          Some (Fin (Qred (inject_Z (sign * mant) * pow10 scale)), s4)
      end
  end.

(** *** [parseFloat(v)] *)
Definition parseFloat (p : option string) : JsNum :=
  let input := match p with None => "undefined" | Some s => s end in
  match take_decimal (trim_start input) with
  | Some (x, _) => x
  | None => NaN
  end.

(** *** [ToNumber], the coercion applied by [-], [*] and [/] *)

Definition ToNumber_string (input : string) : JsNum :=
  let s := trim input in
  match s with
  | EmptyString => Int 0
  | String "0" (String p r) =>
      let nondecimal (R : Z) :=
        match take_digits R r with
        | ([], _) => NaN
        | (ds, EmptyString) => Int (digits_value R ds)
        | (_, _) => NaN
        end in
      if (Ascii.eqb p "x" || Ascii.eqb p "X")%bool then nondecimal 16
      else if (Ascii.eqb p "o" || Ascii.eqb p "O")%bool then nondecimal 8
      else if (Ascii.eqb p "b" || Ascii.eqb p "B")%bool then nondecimal 2
      else
        match take_decimal s with
        | Some (x, EmptyString) => x
        | _ => NaN
        end
  | _ =>
      match take_decimal s with
      | Some (x, EmptyString) => x
      | _ => NaN
      end
  end.

Definition ToNumber (v : JsVal) : JsNum :=
  match v with
  | VUndef => NaN
  | VStr s => ToNumber_string s
  | VInt n => Int n
  end.

End Js.

Import Js.

(* ================================================================== *)
(** ** Text search                                                    *)
(* ================================================================== *)

Module Search.

Definition upper (c : ascii) : ascii :=
  let n := nat_of_ascii c in
  if ((97 <=? n) && (n <=? 122))%nat then ascii_of_nat (n - 32) else c.

(** Equality of characters up to letter case. *)
Definition ci_eqb (a b : ascii) : bool := Ascii.eqb (upper a) (upper b).

(** [p] occurs in [s] at the start / somewhere, up to letter case. *)
Fixpoint ci_prefix (p s : string) : bool :=
  match p, s with
  | EmptyString, _ => true
  | String a p', String b s' => ci_eqb a b && ci_prefix p' s'
  | String _ _, EmptyString => false
  end.

Fixpoint ci_substring (p s : string) : bool :=
  ci_prefix p s ||
  match s with
  | String _ s' => ci_substring p s'
  | EmptyString => false
  end.

(** The syntax characters of a regular expression: [^$\.*+?()[]{}|]. *)
Definition syntax_char (c : ascii) : bool :=
  existsb (Ascii.eqb c)
    ["^"; "$"; "\"; "."; "*"; "+"; "?"; "("; ")"; "["; "]"; "{"; "}"; "|"]%char.

Definition has_syntax_char (s : string) : bool :=
  existsb syntax_char (list_ascii_of_string s).

(** The patterns whose meaning is fixed here are the sequences of
    pattern characters and of the wildcard [.]. *)
Inductive atom : Type :=
| Chr (c : ascii)
| Dot.

(** Matching one character under the flag [i].  The wildcard matches
    every character but the line terminators, which are the engine's
    to name: [newline]. *)
Definition atom_match (newline : ascii -> bool) (a : atom) (c : ascii)
    : bool :=
  match a with
  | Chr x => ci_eqb x c
  | Dot => negb (newline c)
  end.

Fixpoint atoms_prefix (newline : ascii -> bool) (p : list atom) (s : string)
    : bool :=
  match p, s with
  | [], _ => true
  | a :: p', String c s' => atom_match newline a c && atoms_prefix newline p' s'
  | _ :: _, EmptyString => false
  end.

(** A regular expression is not anchored: it matches when it matches at
    some position. *)
Fixpoint atoms_search (newline : ascii -> bool) (p : list atom) (s : string)
    : bool :=
  atoms_prefix newline p s ||
  match s with
  | String _ s' => atoms_search newline p s'
  | EmptyString => false
  end.

Fixpoint parse_atoms (src : string) : option (list atom) :=
  match src with
  | EmptyString => Some []
  | String c r =>
      match parse_atoms r with
      | None => None
      | Some p =>
          if Ascii.eqb c "." then Some (Dot :: p)
          else if syntax_char c then None
          else Some (Chr c :: p)
      end
  end.

(** [new RegExp(src, 'i')], and [{ $regex: src, $options: 'i' }] in
    the store: a test on strings, or a syntax error.  A pattern that
    uses another syntax character than [.] is left to [engine]. *)
Definition RegExp_i (newline : ascii -> bool)
    (engine : string -> option (string -> bool))
    (src : string) : option (string -> bool) :=
  match parse_atoms src with
  | Some p => Some (atoms_search newline p)
  | None => engine src
  end.

End Search.

Import Search.

(* ================================================================== *)
(** ** Documents, stores and collaborators                            *)
(* ================================================================== *)

(** A user document of the credential store. *)
Record User : Type := mkUser {
  user_id : string;
  username : string;
  password : string;          (* the hash, never the plain text *)
  role : string
}.

(** A product document of the catalogue store. *)
Record Product : Type := mkProduct {
  product_id : string;
  name : string;
  description : string;
  price : JsNum;
  original_price : option JsNum;
  quantity : JsNum;
  category : string;
  subcategory : string;
  image : option string;
  specs : list string;
  createdAt : nat
}.

(** The part of a multipart request that [multer] puts in [req.file]. *)
Record File : Type := mkFile {
  mimetype : string;
  buffer : string
}.

(** The object given to [Product.findByIdAndUpdate]: a key whose value
    is [undefined] is left as it is in the stored document. *)
Record ProductUpdate : Type := mkUpdate {
  set_name : option string;
  set_description : option string;
  set_price : JsNum;
  set_original_price : option JsNum;
  set_quantity : JsNum;
  set_category : option string;
  set_subcategory : option string;
  set_specs : list string;
  set_image : option string
}.

(** Exceptions, by their [name]. *)
Inductive Exn : Type :=
| CastError
| ValidationError
| SyntaxError
| MongoServerError
| UploadError.

Definition is_CastError (e : Exn) : bool :=
  match e with CastError => true | _ => false end.

(** The state of the stores and of the media host. *)
Record World : Type := mkWorld {
  users : list User;
  products : list Product;
  media : list File;
  clock : nat
}.

(** The libraries the handlers call.  Their code is not part of the
    repository; the handlers are verified for every behaviour of them. *)
Record Env : Type := mkEnv {
  (* bcryptjs *)
  bcrypt_hash : string -> string;
  bcrypt_compare : string -> string -> bool;
  (* jsonwebtoken: the token for an id, a username and a role *)
  jwt_sign : string -> string -> string -> string;
  (* the store driver: the identifier it makes for the document
     numbered so, and the strings it takes for an identifier *)
  fresh_ObjectId : nat -> string;
  is_ObjectId : string -> bool;
  (* the store driver: the verdict of casting and of the validators on
     an update, [None] when the update is accepted *)
  update_error : ProductUpdate -> option Exn;
  (* the store driver: what a query does with a [skip] and a [limit]
     that are not both natural numbers; [None] when it throws, else the
     number of documents skipped and the bound on those returned *)
  odd_window : JsNum -> JsNum -> option (nat * option nat);
  (* the regular expression engine: its line terminators, and what it
     makes of the patterns not fixed above, [None] for a syntax error *)
  regexp_newline : ascii -> bool;
  regexp_engine : string -> option (string -> bool);
  (* [JSON.parse], read as the schema's sequence of strings; [None]
     when it throws *)
  JSON_parse : string -> option (list string);
  (* the media host: the URL of the uploaded image, [None] on failure *)
  cloudinary_upload : File -> option string
}.

(** *** Identifiers

    An identifier is twelve bytes, written as 24 hexadecimal digits in
    lower case: so the store writes it in a document and in a response.
    A request names one by 24 hexadecimal digits in either case or,
    for the drivers that take it, by the twelve bytes themselves. *)

Definition lower_hex_digit (c : ascii) : ascii :=
  let n := nat_of_ascii c in
  if ((65 <=? n) && (n <=? 70))%nat then ascii_of_nat (n + 32) else c.

Fixpoint lower_hex (s : string) : string :=
  match s with
  | EmptyString => EmptyString
  | String c r => String (lower_hex_digit c) (lower_hex r)
  end.

Definition hex_digit_of (n : nat) : ascii :=
  ascii_of_nat (if (n <? 10)%nat then 48 + n else 87 + n).

Fixpoint hex_encode (s : string) : string :=
  match s with
  | EmptyString => EmptyString
  | String c r =>
      String (hex_digit_of (nat_of_ascii c / 16))
        (String (hex_digit_of (nat_of_ascii c mod 16)) (hex_encode r))
  end.

(** The identifier a string of a request is cast to, as the store
    writes it. *)
Definition ObjectId_hex (s : string) : string :=
  if (String.length s =? 12)%nat then hex_encode s else lower_hex s.

(** [new ObjectId()], as the store writes it. *)
Definition new_ObjectId (env : Env) (n : nat) : string :=
  ObjectId_hex (fresh_ObjectId env n).

(** Modelled from the spec: the schema of [models/User.js], which is not
    among the sources.  The spec's data model: [username] is a required
    string, the password hash is stored, [role] is one of [user] and
    [admin]. *)
Definition User_schema_valid (u : User) : bool :=
  negb (String.eqb (username u) "") &&
  negb (String.eqb (password u) "") &&
  (String.eqb (role u) "user" || String.eqb (role u) "admin").

Definition is_nonneg (x : JsNum) : bool :=
  match x with
  | Fin q => negb (Qis_neg q)
  | Infinity negative => negb negative
  | NaN => false
  end.

Definition is_integer (x : JsNum) : bool :=
  match x with
  | Fin q => Qeq_bool q (inject_Z (Qfloor q))
  | _ => false
  end.

(** Modelled from the spec: the schema of [models/Product.js], which is
    not among the sources.  The spec's data model: [name], [description],
    [category] and [subcategory] are required strings, [price] a required
    non-negative number, [originalPrice] an optional non-negative number,
    [quantity] a required non-negative integer, [image] is required at
    creation. *)
Definition Product_schema_valid (p : Product) : bool :=
  negb (String.eqb (name p) "") &&
  negb (String.eqb (description p) "") &&
  is_nonneg (price p) &&
  match original_price p with Some x => is_nonneg x | None => true end &&
  is_nonneg (quantity p) && is_integer (quantity p) &&
  negb (String.eqb (category p) "") &&
  negb (String.eqb (subcategory p) "") &&
  match image p with Some _ => true | None => false end.

(** *** Computations: state of the stores, and exceptions *)

Definition M (A : Type) : Type := World -> (Exn + A) * World.

Definition ret {A} (a : A) : M A := fun w => (inr a, w).
Definition throw {A} (e : Exn) : M A := fun w => (inl e, w).
Definition bind {A B} (m : M A) (k : A -> M B) : M B :=
  fun w =>
    match m w with
    | (inr a, w') => k a w'
    | (inl e, w') => (inl e, w')
    end.
(** [try { m } catch (error) { h error }]. *)
Definition try_catch {A} (m : M A) (h : Exn -> M A) : M A :=
  fun w =>
    match m w with
    | (inr a, w') => (inr a, w')
    | (inl e, w') => h e w'
    end.

Declare Scope js_scope.
Delimit Scope js_scope with js.
Notation "x <- m ;; k" := (bind m (fun x => k))
  (at level 61, m at next level, right associativity) : js_scope.
Notation "m ;;; k" := (bind m (fun _ => k))
  (at level 61, right associativity) : js_scope.
Local Open Scope js_scope.

(* ================================================================== *)
(** ** The models: [User] and [Product]                               *)
(* ================================================================== *)

Module Store.

Definition set_users (us : list User) (w : World) : World :=
  mkWorld us (products w) (media w) (clock w).
Definition set_products (ps : list Product) (w : World) : World :=
  mkWorld (users w) ps (media w) (clock w).
Definition tick (w : World) : World :=
  mkWorld (users w) (products w) (media w) (S (clock w)).

(** [User.findOne({ username })]. *)
Definition User_findOne (uname : string) : M (option User) :=
  fun w => (inr (find (fun u => String.eqb (username u) uname) (users w)), w).

(** [new User({ username, password, role })]: the identifier is given
    when the document is built. *)
Definition User_new (env : Env) (uname pw r : string) : M User :=
  fun w => (inr (mkUser (new_ObjectId env (clock w)) uname pw r), tick w).

(** [user.save()]: the schema is checked, and the store keeps
    [username] unique. *)
Definition User_save (u : User) : M unit :=
  fun w =>
    if negb (User_schema_valid u) then (inl ValidationError, w)
    else if existsb (fun v => String.eqb (username v) (username u)) (users w)
    then (inl MongoServerError, w)
    else (inr tt, set_users (users w ++ [u]) w).

(** [new Product({ ... })]: identifier and creation time are given
    when the document is built. *)
Definition Product_new (env : Env) (nm ds : string) (pr : JsNum)
    (op : option JsNum) (qt : JsNum) (cat sub : string)
    (img : option string) (sp : list string) : M Product :=
  fun w =>
    (inr (mkProduct (new_ObjectId env (clock w)) nm ds pr op qt cat sub
            img sp (clock w)), tick w).

(** [product.save()]. *)
Definition Product_save (p : Product) : M unit :=
  fun w =>
    if Product_schema_valid p
    then (inr tt, set_products (products w ++ [p]) w)
    else (inl ValidationError, w).

(** The filter built by the listing handlers: the test of [$or] on the
    five text fields, and the value [category] must equal. *)
Record Query : Type := mkQuery {
  q_or : option (string -> bool);
  q_category : option string
}.

Definition matches (q : Query) (p : Product) : bool :=
  match q_or q with
  | Some re =>
      re (name p) || re (description p) || re (category p) ||
      re (subcategory p) || existsb re (specs p)
  | None => true
  end &&
  match q_category q with
  | Some c => String.eqb (category p) c
  | None => true
  end.

(** [.sort({ createdAt: -1 })]: newest first. *)
Fixpoint insert_newest (p : Product) (l : list Product) : list Product :=
  match l with
  | [] => [p]
  | x :: r =>
      if (createdAt x <=? createdAt p)%nat then p :: l
      else x :: insert_newest p r
  end.

Definition sort_newest (l : list Product) : list Product :=
  fold_right insert_newest [] l.

Definition as_nat (x : JsNum) : option nat :=
  if is_integer x && is_nonneg x
  then match x with Fin q => Some (Z.to_nat (Qfloor q)) | _ => None end
  else None.

(** What [skip] and [limit] select: natural numbers skip and bound as
    they say, a limit of [0] being no limit; anything else is up to the
    driver. *)
Definition window (env : Env) (skip limit : JsNum)
    : option (nat * option nat) :=
  match as_nat skip, as_nat limit with
  | Some s, Some l => Some (s, if (l =? 0)%nat then None else Some l)
  | _, _ => odd_window env skip limit
  end.

(** [Product.find(q).skip(skip).limit(limit)], sorted when [sorted]. *)
Definition Product_find (env : Env) (q : Query) (skip limit : JsNum)
    (sorted : bool) : M (list Product) :=
  fun w =>
    match window env skip limit with
    | None => (inl MongoServerError, w)
    | Some (s, l) =>
        let found := filter (matches q) (products w) in
        let docs := skipn s (if sorted then sort_newest found else found) in
        (inr (match l with Some n => firstn n docs | None => docs end), w)
    end.

(** [Product.countDocuments(q)]. *)
Definition Product_countDocuments (q : Query) : M nat :=
  fun w => (inr (length (filter (matches q) (products w))), w).

(** The document has the identifier that [id] is cast to. *)
Definition has_id (id : string) (p : Product) : bool :=
  String.eqb (product_id p) (ObjectId_hex id).

Fixpoint replace_first (id : string) (p' : Product) (l : list Product)
    : list Product :=
  match l with
  | [] => []
  | x :: r => if has_id id x then p' :: r else x :: replace_first id p' r
  end.

Fixpoint remove_first (id : string) (l : list Product) : list Product :=
  match l with
  | [] => []
  | x :: r => if has_id id x then r else x :: remove_first id r
  end.

Definition opt_or {A} (o : option A) (d : A) : A :=
  match o with Some a => a | None => d end.

Definition apply_update (u : ProductUpdate) (p : Product) : Product :=
  mkProduct (product_id p)
    (opt_or (set_name u) (name p))
    (opt_or (set_description u) (description p))
    (set_price u)
    (match set_original_price u with
     | Some x => Some x
     | None => original_price p
     end)
    (set_quantity u)
    (opt_or (set_category u) (category p))
    (opt_or (set_subcategory u) (subcategory p))
    (match set_image u with Some i => Some i | None => image p end)
    (set_specs u)
    (createdAt p).

(** [Product.findByIdAndUpdate(id, u, { new: true, runValidators: true })]:
    a malformed [id] is a [CastError]; no document with this [id] is
    [null]. *)
Definition Product_findByIdAndUpdate (env : Env) (id : string)
    (u : ProductUpdate) : M (option Product) :=
  fun w =>
    if negb (is_ObjectId env id) then (inl CastError, w)
    else
      match update_error env u with
      | Some e => (inl e, w)
      | None =>
          match find (has_id id) (products w) with
          | None => (inr None, w)
          | Some p =>
              let p' := apply_update u p in
              (inr (Some p'), set_products (replace_first id p' (products w)) w)
          end
      end.

(** [Product.findByIdAndDelete(id)]. *)
Definition Product_findByIdAndDelete (env : Env) (id : string)
    : M (option Product) :=
  fun w =>
    if negb (is_ObjectId env id) then (inl CastError, w)
    else
      match find (has_id id) (products w) with
      | None => (inr None, w)
      | Some p =>
          (inr (Some p), set_products (remove_first id (products w)) w)
      end.

(** [cloudinary.uploader.upload(...)]: the image is on the media host
    once the call has returned. *)
Definition cloudinary_uploader_upload (env : Env) (f : File) : M string :=
  fun w =>
    match cloudinary_upload env f with
    | Some url =>
        (inr url, mkWorld (users w) (products w) (media w ++ [f]) (clock w))
    | None => (inl UploadError, w)
    end.

(** [Product.findById(id)]: a malformed [id] is a [CastError]; no
    document with this [id] is [null]. *)
Definition Product_findById (env : Env) (id : string) : M (option Product) :=
  fun w =>
    if negb (is_ObjectId env id) then (inl CastError, w)
    else (inr (find (has_id id) (products w)), w).

(** [Product.distinct('category')]: the values of [category], each one
    once. *)
Definition Product_distinct_category : M (list string) :=
  fun w => (inr (nodup string_dec (map category (products w))), w).

End Store.

Import Store.

(* ================================================================== *)
(** ** Requests and responses                                         *)
(* ================================================================== *)

(** The JSON bodies the handlers send. *)
Inductive Json : Type :=
| JMessage (message : string)
| JError (message : string) (error : Exn)
| JRegistered (message userId uname : string)
| JLogin (message token urole : string)
| JProduct (p : Product)
| JListing (found : list Product) (currentPage totalPages : JsNum)
    (totalProducts : nat).

Record Response : Type := mkResponse {
  status : Z;
  json : Json
}.

(** [res.status(n).json(j)]. *)
Definition send (n : Z) (j : Json) : M Response := ret (mkResponse n j).

(** A response whose body, on success, is a bare array of strings. *)
Record ArrayResponse : Type := mkArrayResponse {
  array_status : Z;
  array_json : list string + Json
}.

(** [req.body] of [/api/register] and [/api/login]. *)
Record Credentials : Type := mkCredentials {
  c_username : option string;
  c_password : option string;
  c_role : option string
}.

(** [req.body] of the product routes of [server.js]. *)
Record ProductBody : Type := mkBody {
  b_name : option string;
  b_description : option string;
  b_price : option string;
  b_originalPrice : option string;
  b_quantity : option string;
  b_category : option string;
  b_subCategory : option string;
  b_specs : option string;
  b_imageUrl : option string
}.

(** [req.body] of the product routes of [routes/products.js]. *)
Record RouterBody : Type := mkRouterBody {
  rb_name : option string;
  rb_description : option string;
  rb_price : option string;
  rb_original_price : option string;
  rb_quantity : option string;
  rb_category : option string;
  rb_subcategory : option string;
  rb_specs : option string
}.

(** [req.query] of the listings. *)
Record ListQuery : Type := mkListQuery {
  query_page : option string;
  query_limit : option string;
  query_search : option string;
  query_category : option string
}.

(** What [req.user] holds for the router: the [isAdmin] property. *)
Record ReqUser : Type := mkReqUser {
  isAdmin : bool
}.

Definition str (p : option string) : string :=
  match p with Some s => s | None => "" end.

(** [a || d] on a field. *)
Definition or_else (p : option string) (d : string) : string :=
  if truthy p then str p else d.

(* ================================================================== *)
(** ** [server.js]: authentication routes                             *)
(* ================================================================== *)

Definition server_error (message : string) : Exn -> M Response :=
  fun error => send 500 (JError message error).

(** [app.post('/api/register', ...)]. *)
Definition register (env : Env) (body : Credentials) : M Response :=
  try_catch
    (if negb (truthy (c_username body)) || negb (truthy (c_password body))
     then send 400 (JMessage "Username and password are required")
     else
       existingUser <- User_findOne (str (c_username body)) ;;
       match existingUser with
       | Some _ => send 409 (JMessage "Username already exists")
       | None =>
           let hashedPassword := bcrypt_hash env (str (c_password body)) in
           newUser <- User_new env (str (c_username body)) hashedPassword
                        (or_else (c_role body) "user") ;;
           User_save newUser ;;;
           send 201 (JRegistered "User registered successfully"
                       (user_id newUser) (username newUser))
       end)
    (server_error "Server error").

(** [app.post('/api/login', ...)]. *)
Definition login (env : Env) (body : Credentials) : M Response :=
  try_catch
    (if negb (truthy (c_username body)) || negb (truthy (c_password body))
     then send 400 (JMessage "Username and password are required")
     else
       user <- User_findOne (str (c_username body)) ;;
       match user with
       | None => send 401 (JMessage "Invalid credentials")
       | Some u =>
           let isMatch :=
             bcrypt_compare env (str (c_password body)) (password u) in
           if negb isMatch
           then send 401 (JMessage "Invalid credentials")
           else
             let token := jwt_sign env (user_id u) (username u) (role u) in
             send 200 (JLogin "Login successful" token (role u))
       end)
    (server_error "Server error").

(* ================================================================== *)
(** ** [server.js]: product routes                                    *)
(* ================================================================== *)

(** [specs ? JSON.parse(specs) : []]. *)
Definition parsed_specs (env : Env) (specs : option string)
    : option (list string) :=
  if truthy specs then JSON_parse env (str specs) else Some [].

Definition parse_specs (env : Env) (specs : option string) : M (list string) :=
  match parsed_specs env specs with
  | Some l => ret l
  | None => throw SyntaxError
  end.

(** [x ? parseFloat(x) : undefined]. *)
Definition optional_float (x : option string) : option JsNum :=
  if truthy x then Some (parseFloat x) else None.

Definition missing_fields : string :=
  "Missing required product fields: name, description, price, quantity, category, subCategory".

(** [app.post('/api/products', authenticateToken, authorizeRole(['admin']),
    upload.single('image'), ...)]: the handler proper, which runs for the
    requests the two middlewares let through, those of an admin. *)
Definition post_product (env : Env) (file : option File) (body : ProductBody)
    : M Response :=
  try_catch
    (match file with
     | None => send 400 (JMessage "No image file uploaded")
     | Some f =>
         result <- cloudinary_uploader_upload env f ;;
         if negb (truthy (b_name body)) || negb (truthy (b_description body))
            || negb (truthy (b_price body)) || negb (truthy (b_quantity body))
            || negb (truthy (b_category body))
            || negb (truthy (b_subCategory body))
         then send 400 (JMessage missing_fields)
         else
           specs <- parse_specs env (b_specs body) ;;
           newProduct <- Product_new env (str (b_name body))
             (str (b_description body))
             (parseFloat (b_price body))
             (optional_float (b_originalPrice body))
             (parseInt (of_param (b_quantity body)))
             (str (b_category body)) (str (b_subCategory body))
             (Some result) specs ;;
           Product_save newProduct ;;;
           send 201 (JProduct newProduct)
     end)
    (server_error "Server error").

(** The second argument of [findByIdAndUpdate] in [app.put]. *)
Definition update_of_body (body : ProductBody) (specs : list string)
    (image : option string) : ProductUpdate :=
  mkUpdate (b_name body) (b_description body)
    (parseFloat (b_price body))
    (optional_float (b_originalPrice body))
    (parseInt (of_param (b_quantity body)))
    (b_category body) (b_subCategory body) specs image.

(** The [catch] block of the [:id] routes of [server.js]. *)
Definition id_error (error : Exn) : M Response :=
  if is_CastError error
  then send 400 (JMessage "Invalid product ID format")
  else send 500 (JError "Server error" error).

(** [app.put('/api/products/:id', ...)]. *)
Definition put_product (env : Env) (id : string) (file : option File)
    (body : ProductBody) : M Response :=
  try_catch
    (image <- match file with
              | Some f =>
                  result <- cloudinary_uploader_upload env f ;;
                  ret (Some result)
              | None => ret (b_imageUrl body)
              end ;;
     specs <- parse_specs env (b_specs body) ;;
     updatedProduct <-
       Product_findByIdAndUpdate env id (update_of_body body specs image) ;;
     match updatedProduct with
     | None => send 404 (JMessage "Product not found")
     | Some p => send 200 (JProduct p)
     end)
    id_error.

(** [app.delete('/api/products/:id', ...)]. *)
Definition delete_product (env : Env) (id : string) : M Response :=
  try_catch
    (deletedProduct <- Product_findByIdAndDelete env id ;;
     match deletedProduct with
     | None => send 404 (JMessage "Product not found")
     | Some _ => send 200 (JMessage "Product deleted successfully")
     end)
    id_error.

(** [if (search) { query.$or = [...] }]: the test of the five text
    fields, if any; [None] when the pattern does not compile. *)
Definition search_filter (env : Env) (search : option string)
    : option (option (string -> bool)) :=
  if truthy search
  then match RegExp_i (regexp_newline env) (regexp_engine env)
               (str search) with
       | Some searchRegex => Some (Some searchRegex)
       | None => None
       end
  else Some None.

(** [if (category && category !== 'All') { query.category = category }]. *)
Definition category_filter (category : option string) : option string :=
  if truthy category && negb (String.eqb (str category) "All")
  then Some (str category) else None.

(** The filter of the listings.  [bad_pattern] is the exception of a
    pattern that does not compile. *)
Definition build_query (env : Env) (bad_pattern : Exn)
    (search category : option string) : M Query :=
  match search_filter env search with
  | Some or => ret (mkQuery or (category_filter category))
  | None => throw bad_pattern
  end.

(** The argument of [.skip(...)]: [(parseInt(page) - 1) * parseInt(limit)]. *)
Definition skip_arg (page limit : JsVal) : JsNum :=
  mul (sub (parseInt page) (Int 1)) (parseInt limit).

(** [app.get('/api/products', ...)], the first of the two definitions
    in [server.js] (the second one is never reached). *)
Definition get_products (env : Env) (q : ListQuery) : M Response :=
  try_catch
    (let page := of_param (query_page q) in
     let limit := with_default 9999 (query_limit q) in
     query <- build_query env SyntaxError (query_search q) (query_category q) ;;
     found <- Product_find env query (skip_arg page limit)
                (parseInt limit) true ;;
     totalProducts <- Product_countDocuments query ;;
     let totalPages :=
       Math_ceil (div (Int (Z.of_nat totalProducts)) (parseInt limit)) in
     send 200 (JListing found (parseInt page) totalPages totalProducts))
    (server_error "Server error").

(** [app.get('/api/products/:id', ...)]. *)
Definition get_product (env : Env) (id : string) : M Response :=
  try_catch
    (product <- Product_findById env id ;;
     match product with
     | None => send 404 (JMessage "Product not found")
     | Some p => send 200 (JProduct p)
     end)
    id_error.

(** [app.get('/api/categories', ...)]. *)
Definition get_categories : M ArrayResponse :=
  try_catch
    (categories <- Product_distinct_category ;;
     ret (mkArrayResponse 200 (inl categories)))
    (fun error =>
       ret (mkArrayResponse 500 (inr (JError "Server error" error)))).

(* ================================================================== *)
(** ** [routes/products.js]                                           *)
(* ================================================================== *)

Module Router.

(** [!req.user || !req.user.isAdmin]. *)
Definition not_admin (user : option ReqUser) : bool :=
  match user with
  | None => true
  | Some u => negb (isAdmin u)
  end.

Definition access_denied : M Response :=
  send 403 (JMessage "Access denied. Admins only.").

(** [s.split(',')]. *)
Fixpoint split_comma (s : string) : list string :=
  match s with
  | EmptyString => [""]
  | String c r =>
      if Ascii.eqb c "," then "" :: split_comma r
      else match split_comma r with
           | h :: t => String c h :: t
           | [] => [String c ""]
           end
  end.

(** [specs ? specs.split(',').map(s => s.trim()) : []]. *)
Definition split_specs (specs : option string) : list string :=
  if truthy specs then map trim (split_comma (str specs)) else [].

(** [router.post('/', auth, upload.single('imageFile'), ...)]. *)
Definition post (env : Env) (user : option ReqUser) (file : option File)
    (body : RouterBody) : M Response :=
  try_catch
    (if not_admin user then access_denied
     else
       match file with
       | None => send 400 (JMessage "No image file uploaded.")
       | Some f =>
           uploadResult <- cloudinary_uploader_upload env f ;;
           newProduct <- Product_new env (str (rb_name body))
             (str (rb_description body))
             (parseFloat (rb_price body))
             (optional_float (rb_original_price body))
             (parseInt (of_param (rb_quantity body)))
             (str (rb_category body)) (str (rb_subcategory body))
             (Some uploadResult) (split_specs (rb_specs body)) ;;
           Product_save newProduct ;;;
           send 201 (JProduct newProduct)
       end)
    (server_error "Server Error").

(** The second argument of [findByIdAndUpdate] in [router.put]. *)
Definition update_of_body (body : RouterBody) : ProductUpdate :=
  mkUpdate (rb_name body) (rb_description body)
    (parseFloat (rb_price body))
    (optional_float (rb_original_price body))
    (parseInt (of_param (rb_quantity body)))
    (rb_category body) (rb_subcategory body)
    (split_specs (rb_specs body)) None.

(** [router.put('/:id', auth, ...)]. *)
Definition put (env : Env) (user : option ReqUser) (id : string)
    (body : RouterBody) : M Response :=
  try_catch
    (if not_admin user then access_denied
     else
       updatedProduct <-
         Product_findByIdAndUpdate env id (update_of_body body) ;;
       match updatedProduct with
       | None => send 404 (JMessage "Product not found")
       | Some p => send 200 (JProduct p)
       end)
    (server_error "Server Error").

(** [router.delete('/:id', auth, ...)]. *)
Definition delete (env : Env) (user : option ReqUser) (id : string)
    : M Response :=
  try_catch
    (if not_admin user then access_denied
     else
       deletedProduct <- Product_findByIdAndDelete env id ;;
       match deletedProduct with
       | None => send 404 (JMessage "Product not found")
       | Some _ => send 200 (JMessage "Product deleted successfully")
       end)
    (server_error "Server Error").

(** The argument of [.skip(...)]: [(page - 1) * limit]. *)
Definition skip_arg (page limit : JsVal) : JsNum :=
  mul (sub (ToNumber page) (Int 1)) (ToNumber limit).

(** [router.get('/', ...)]: [page] and [limit] have defaults, the
    arithmetic coerces them with [ToNumber], and there is no sort. *)
Definition get (env : Env) (q : ListQuery) : M Response :=
  try_catch
    (let page := with_default 1 (query_page q) in
     let limit := with_default 9 (query_limit q) in
     query <- build_query env MongoServerError (query_search q)
                (query_category q) ;;
     found <- Product_find env query (skip_arg page limit)
                (parseInt limit) false ;;
     totalProducts <- Product_countDocuments query ;;
     let totalPages :=
       Math_ceil (div (Int (Z.of_nat totalProducts)) (ToNumber limit)) in
     send 200 (JListing found (parseInt page) totalPages totalProducts))
    (server_error "Server Error").

(** [router.get('/:id', ...)]: the [catch] block answers 500 whatever
    the error. *)
Definition get_by_id (env : Env) (id : string) : M Response :=
  try_catch
    (product <- Product_findById env id ;;
     match product with
     | None => send 404 (JMessage "Product not found")
     | Some p => send 200 (JProduct p)
     end)
    (server_error "Server Error").

(** [router.get('/categories', ...)]. *)
Definition categories : M ArrayResponse :=
  try_catch
    (categories <- Product_distinct_category ;;
     ret (mkArrayResponse 200 (inl categories)))
    (fun error =>
       ret (mkArrayResponse 500 (inr (JError "Server Error" error)))).

(** *** The order of the [GET] routes

    A path below the mount point is its list of segments: [/] is [[]],
    [/abc] is [["abc"]]. *)
Inductive Pattern : Type :=
| Root                      (* ['/'] *)
| Param                     (* ['/:id'] *)
| Literal (s : string).     (* ['/categories'] *)

(** Equality of strings up to letter case, as route paths are compared. *)
Fixpoint ci_equal (a b : string) : bool :=
  match a, b with
  | EmptyString, EmptyString => true
  | String x a', String y b' => ci_eqb x y && ci_equal a' b'
  | _, _ => false
  end.

(** The parameter a path gives to a pattern it matches ([""] when the
    pattern has none); [None] when it does not match. *)
Definition route_match (pat : Pattern) (path : list string) : option string :=
  match pat, path with
  | Root, [] => Some ""
  | Param, [seg] => if String.eqb seg "" then None else Some seg
  | Literal l, [seg] => if ci_equal l seg then Some "" else None
  | _, _ => None
  end.

Inductive Reply : Type :=
| Plain (r : Response)
| Array (r : ArrayResponse).

Definition plain (h : M Response) : M Reply :=
  r <- h ;; ret (Plain r).
Definition array (h : M ArrayResponse) : M Reply :=
  r <- h ;; ret (Array r).

(** The [GET] routes in the order [routes/products.js] registers them. *)
Definition get_routes (env : Env) (q : ListQuery)
    : list (Pattern * (string -> M Reply)) :=
  [ (Root, fun _ => plain (get env q));
    (Param, fun id => plain (get_by_id env id));
    (Literal "categories", fun _ => array categories) ].

(** A request goes to the first route its path matches; each handler
    here answers without calling [next].  [None]: no route of the
    router takes the request. *)
Fixpoint dispatch (routes : list (Pattern * (string -> M Reply)))
    (path : list string) : option (M Reply) :=
  match routes with
  | [] => None
  | (pat, handler) :: rest =>
      match route_match pat path with
      | Some param => Some (handler param)
      | None => dispatch rest path
      end
  end.

End Router.

(* ================================================================== *)
(** ** A concrete setting                                             *)
(* ================================================================== *)

(** One behaviour of the libraries, to run the handlers on examples.
    This driver throws on a [skip] or [limit] that is not a natural
    number; of regular expressions it knows the patterns fixed in
    [Search] only, and of JSON the empty array only. *)
Module Demo.

Definition hex_digit (c : ascii) : bool :=
  match radix_digit 16 c with Some _ => true | None => false end.

(** An identifier is written with 24 hexadecimal digits. *)
Definition is_ObjectId (s : string) : bool :=
  (String.length s =? 24)%nat && forallb hex_digit (list_ascii_of_string s).

Fixpoint hex_of_nat (fuel n : nat) (acc : string) : string :=
  match fuel with
  | O => acc
  | S fuel' =>
      let d := (n mod 16)%nat in
      let c := ascii_of_nat (if (d <? 10)%nat then 48 + d else 87 + d) in
      hex_of_nat fuel' (n / 16)%nat (String c acc)
  end.

Definition new_ObjectId (n : nat) : string := hex_of_nat 24 n "".

(** Line feed and carriage return end a line. *)
Definition line_terminator (c : ascii) : bool :=
  match nat_of_ascii c with
  | 10%nat | 13%nat => true
  | _ => false
  end.

(** The cast refuses an update one of whose numbers is not a number. *)
Definition update_error (u : ProductUpdate) : option Exn :=
  if isNaN (set_price u) || isNaN (set_quantity u)
     || match set_original_price u with
        | Some x => isNaN x
        | None => false
        end
  then Some CastError
  else None.

Definition env : Env :=
  mkEnv
    (fun pw => "$2a$10$" ++ pw)
    (fun pw hash => String.eqb ("$2a$10$" ++ pw) hash)
    (fun id uname r => "jwt." ++ id ++ "." ++ uname ++ "." ++ r)
    new_ObjectId
    is_ObjectId
    update_error
    (fun _ _ => None)
    line_terminator
    (fun _ => None)
    (fun s => if String.eqb s "[]" then Some [] else None)
    (fun f => Some ("https://media.example/" ++ buffer f)).

(** The same, with a driver that takes a [skip] or a [limit] that is
    not a natural number as none at all. *)
Definition lenient : Env :=
  mkEnv (bcrypt_hash env) (bcrypt_compare env) (jwt_sign env)
    new_ObjectId is_ObjectId update_error
    (fun _ _ => Some (0%nat, None))
    (regexp_newline env) (regexp_engine env) (JSON_parse env)
    (cloudinary_upload env).

Definition alice : User :=
  mkUser (new_ObjectId 0) "alice" "$2a$10$secret123" "user".

Definition glove (n : nat) (nm cat : string) : Product :=
  mkProduct (new_ObjectId n) nm "Nitrile, box of 100" (Int 12) None (Int 40)
    cat "Disposable" (Some "https://media.example/g") ["blue"; "latex-free"] n.

Definition world : World :=
  mkWorld [alice]
    [glove 1 "abc glove" "Gloves"; glove 2 "Mask" "Masks";
     glove 3 "Work glove" "Gloves"; glove 4 "Glove XL" "Gloves";
     glove 5 "Gown" "Gowns"; glove 6 "Glove S" "Gloves";
     glove 7 "Glove M" "Gloves"]
    [] 8.

(** A catalogue with an identifier that has a letter, and the same
    identifier as a request may write it. *)
Definition shelf : World :=
  mkWorld [] [glove 10 "Visor" "Masks"; glove 11 "Cap" "Gowns"] [] 12.

Definition visor_id : string := "00000000000000000000000A".

(** The stores before anybody has registered. *)
Definition nobody : World := mkWorld [] [] [] 0.

Definition photo : File := mkFile "image/png" "png-bytes".

Definition empty_body : ProductBody :=
  mkBody None None None None None None None None None.

(** A creation whose price is not a number. *)
Definition priced_abc : ProductBody :=
  mkBody (Some "Apron") (Some "PVC apron") (Some "abc") None (Some "4")
    (Some "Gowns") (Some "Aprons") None None.

(** [?category=Gloves&page=2&limit=2]. *)
Definition gloves_page2 : ListQuery :=
  mkListQuery (Some "2") (Some "2") None (Some "Gloves").

(** [?page=abc&limit=2]. *)
Definition page_abc : ListQuery :=
  mkListQuery (Some "abc") (Some "2") None None.

(** [?page=1&search=a.c]. *)
Definition search_a_dot_c : ListQuery :=
  mkListQuery (Some "1") None (Some "a.c") None.

Definition empty_router_body : RouterBody :=
  mkRouterBody None None None None None None None None.

Definition bob : User :=
  mkUser (new_ObjectId 8) "bob" "$2a$10$pw" "user".

Definition alice_again : Credentials :=
  mkCredentials (Some "alice") (Some "secret123") None.
Definition bob_registers : Credentials :=
  mkCredentials (Some "bob") (Some "pw") None.

Definition admin : option ReqUser := Some (mkReqUser true).

(** A creation the model accepts. *)
Definition apron : ProductBody :=
  mkBody (Some "Apron") (Some "PVC apron") (Some "12.50") None (Some "4")
    (Some "Gowns") (Some "Aprons") None None.

(** An update that gives a price and a quantity and nothing else. *)
Definition reprice : ProductBody :=
  mkBody None None (Some "9.5") None (Some "30") None None None None.

(** [?page=1&limit=2] and [?page=2&limit=2], [?page=9&limit=2]. *)
Definition page_of (s : string) : ListQuery :=
  mkListQuery (Some s) (Some "2") None None.

End Demo.

(* ================================================================== *)
(** ** What the handlers answer                                       *)
(* ================================================================== *)

(** The response of a handler run in [w], and the state it leaves. *)
Definition response_of (h : M Response) (w : World) : option Response :=
  match fst (h w) with
  | inr r => Some r
  | inl _ => None
  end.

Definition world_after (h : M Response) (w : World) : World := snd (h w).

Definition status_of (h : M Response) (w : World) : option Z :=
  option_map status (response_of h w).

(** The products of a listing response. *)
Definition listed (h : M Response) (w : World) : list Product :=
  match response_of h w with
  | Some (mkResponse _ (JListing found _ _ _)) => found
  | _ => []
  end.

(** The document of the credential store for a username. *)
Definition stored_user (w : World) (uname : string) : option User :=
  find (fun u => String.eqb (username u) uname) (users w).

(** The search of the listings as the specification words it: the
    search string occurs, up to letter case, in the name, the
    description, the category, the subcategory or one of the specs. *)
Definition spec_search_match (s : string) (p : Product) : bool :=
  ci_substring s (name p) || ci_substring s (description p) ||
  ci_substring s (category p) || ci_substring s (subcategory p) ||
  existsb (ci_substring s) (specs p).

(** Username and password are both given: the request is past the
    first check of [register] and [login]. *)
Definition validated (body : Credentials) : bool :=
  truthy (c_username body) && truthy (c_password body).

(** A numeric field of the body is given and does not parse. *)
Definition parse_failure (body : ProductBody) : bool :=
  truthy (b_price body) && isNaN (parseFloat (b_price body)) ||
  truthy (b_originalPrice body) && isNaN (parseFloat (b_originalPrice body)) ||
  truthy (b_quantity body) && isNaN (parseInt (of_param (b_quantity body))).

(** The required fields of a product creation are all given. *)
Definition required_fields_given (body : ProductBody) : bool :=
  truthy (b_name body) && truthy (b_description body) &&
  truthy (b_price body) && truthy (b_quantity body) &&
  truthy (b_category body) && truthy (b_subCategory body).

(** The response of the handlers that send an array. *)
Definition array_response_of (h : M ArrayResponse) (w : World)
    : option ArrayResponse :=
  match fst (h w) with
  | inr r => Some r
  | inl _ => None
  end.

(** The usernames of the credential store and the identifiers of the
    catalogue, in the order of the documents. *)
Definition usernames (w : World) : list string := map username (users w).
Definition product_ids (w : World) : list string :=
  map product_id (products w).

(** A list of products is in the order of a listing: no product is
    followed by a newer one. *)
Definition newest_first (l : list Product) : Prop :=
  StronglySorted (fun a b => (createdAt b <= createdAt a)%nat) l.

(** The products a listing filter retains, in the order of the store. *)
Definition retained (or : option (string -> bool)) (cat : option string)
    (w : World) : list Product :=
  filter (matches (mkQuery or cat)) (products w).

(** The document [register] builds for a request. *)
Definition new_user (env : Env) (body : Credentials) (w : World) : User :=
  mkUser (new_ObjectId env (clock w)) (str (c_username body))
    (bcrypt_hash env (str (c_password body)))
    (or_else (c_role body) "user").





(* ================================================================== *)
(** ** Parsing numbers, on examples                                   *)
(* ================================================================== *)

Example parseInt_12 :
  parseInt (VStr "12") = Int 12.
Proof. reflexivity. Qed.
Example parseInt_ws :
  parseInt (VStr "  -7px") = Int (-7).
Proof. reflexivity. Qed.
Example parseInt_hex :
  parseInt (VStr "0x1F") = Int 31.
Proof. reflexivity. Qed.
Example parseInt_abc :
  parseInt (VStr "abc") = NaN.
Proof. reflexivity. Qed.
Example parseInt_undef :
  parseInt VUndef = NaN.
Proof. reflexivity. Qed.
Example parseInt_frac :
  parseInt (VStr "2.5") = Int 2.
Proof. reflexivity. Qed.
Example parseFloat_1250 :
  parseFloat (Some "12.50") = Fin (25 # 2).
Proof. reflexivity. Qed.
Example parseFloat_exp :
  parseFloat (Some "1e2x") = Int 100.
Proof. reflexivity. Qed.
Example parseFloat_dot :
  parseFloat (Some ".5") = Fin (1 # 2).
Proof. reflexivity. Qed.
Example parseFloat_trail :
  parseFloat (Some "5.") = Int 5.
Proof. reflexivity. Qed.
Example parseFloat_e :
  parseFloat (Some "3e") = Int 3.
Proof. reflexivity. Qed.
Example parseFloat_abc :
  parseFloat (Some "abc") = NaN.
Proof. reflexivity. Qed.
Example parseFloat_undef :
  parseFloat None = NaN.
Proof. reflexivity. Qed.
Example ToNumber_empty :
  ToNumber (VStr "") = Int 0.
Proof. reflexivity. Qed.
Example ToNumber_25 :
  ToNumber (VStr " 2.5 ") = Fin (5 # 2).
Proof. reflexivity. Qed.
Example ToNumber_px :
  ToNumber (VStr "7px") = NaN.
Proof. reflexivity. Qed.
Example parseFloat_nbsp :
  parseFloat (Some (String (ascii_of_nat 194) (String (ascii_of_nat 160)
                      "12.5"))) = Fin (25 # 2).
Proof. reflexivity. Qed.
Example parseInt_bom :
  parseInt (VStr (String (ascii_of_nat 239) (String (ascii_of_nat 187)
                    (String (ascii_of_nat 191) " 7")))) = Int 7.
Proof. reflexivity. Qed.
Example trim_nbsp_both_ends :
  trim (String (ascii_of_nat 194) (String (ascii_of_nat 160)
          (" blue" ++ String (ascii_of_nat 194)
                        (String (ascii_of_nat 160) " ")))) = "blue".
Proof. reflexivity. Qed.
Example ObjectId_hex_upper :
  ObjectId_hex "00000000000000000000000A" = "00000000000000000000000a".
Proof. reflexivity. Qed.
Example ObjectId_hex_bytes :
  ObjectId_hex "abcdefghijkl" = "6162636465666768696a6b6c".
Proof. reflexivity. Qed.
Example ToNumber_hex :
  ToNumber (VStr "0x10") = Int 16.
Proof. reflexivity. Qed.

(* ================================================================== *)
(** ** Registration and login                                         *)
(* ================================================================== *)

Section Authentication.

Variable env : Env.

Lemma validated_checks (body : Credentials) :
  validated body = true ->
  negb (truthy (c_username body)) || negb (truthy (c_password body)) = false.
Proof.
  unfold validated. intros H. apply andb_prop in H as [-> ->]. reflexivity.
Qed.

Lemma register_validated (body : Credentials) (w : World) :
  validated body = true ->
  register env body w =
    match stored_user w (str (c_username body)) with
    | Some _ => (inr (mkResponse 409 (JMessage "Username already exists")), w)
    | None =>
        let u := mkUser (new_ObjectId env (clock w)) (str (c_username body))
                   (bcrypt_hash env (str (c_password body)))
                   (or_else (c_role body) "user") in
        match User_save u (tick w) with
        | (inr _, w') =>
            (inr (mkResponse 201
                    (JRegistered "User registered successfully"
                       (user_id u) (username u))), w')
        | (inl e, w') => (inr (mkResponse 500 (JError "Server error" e)), w')
        end
    end.
Proof.
  intros Hv. unfold register. rewrite (validated_checks _ Hv).
  unfold stored_user, try_catch, bind, User_findOne, User_new, send, ret.
  destruct (find _ (users w)); [reflexivity|].
  cbv zeta. destruct (User_save _ (tick w)) as [[e|[]] w']; reflexivity.
Qed.

Lemma register_not_validated (body : Credentials) (w : World) :
  validated body = false ->
  register env body w =
    (inr (mkResponse 400 (JMessage "Username and password are required")), w).
Proof.
  unfold validated, register. intros Hv.
  assert (negb (truthy (c_username body)) || negb (truthy (c_password body))
          = true) as ->.
  { destruct (truthy (c_username body)), (truthy (c_password body));
      simpl in *; congruence. }
  reflexivity.
Qed.

Lemma User_save_users (u : User) (w w' : World) (r : Exn + unit) :
  User_save u w = (r, w') ->
  users w' = users w \/
  (users w' = (users w ++ [u])%list /\ User_schema_valid u = true).
Proof.
  unfold User_save. intros H.
  destruct (User_schema_valid u); simpl in H.
  - destruct (existsb _ (users w)); inversion H; subst; simpl; auto.
  - inversion H; auto.
Qed.

(** C5. A registration request that names a username already in the
    credential store leaves the stores as they were; being past the
    presence check of username and password, it is answered 409
    [Username already exists]. *)
Theorem register_existing_username_conflict
    (body : Credentials) (w : World) (u : User) :
  stored_user w (str (c_username body)) = Some u ->
  world_after (register env body) w = w /\
  (validated body = true ->
   response_of (register env body) w =
     Some (mkResponse 409 (JMessage "Username already exists"))).
Proof.
  intros Hu. unfold response_of, world_after.
  destruct (validated body) eqn:Hv.
  - rewrite (register_validated _ _ Hv), Hu. split; reflexivity.
  - rewrite (register_not_validated _ _ Hv). split; [reflexivity|].
    discriminate.
Qed.

(** C4. A user document that registration adds to the credential store
    has the role [user] or [admin]; when the request has no [role]
    field the role is [user]. *)
Theorem registered_role (body : Credentials) (w : World) (u : User) :
  In u (users (world_after (register env body) w)) ->
  ~ In u (users w) ->
  (role u = "user" \/ role u = "admin") /\
  (c_role body = None -> role u = "user").
Proof.
  intros Hin Hnew. unfold world_after in Hin.
  destruct (validated body) eqn:Hv.
  2:{ rewrite (register_not_validated _ _ Hv) in Hin. contradiction. }
  rewrite (register_validated _ _ Hv) in Hin.
  destruct (stored_user w _); [contradiction|].
  cbv zeta in Hin.
  match type of Hin with
  | context [User_save ?d (tick w)] =>
      remember d as doc eqn:Hdoc;
      destruct (User_save doc (tick w)) as [r w'] eqn:Hs
  end.
  assert (Hw' : In u (users w')) by (destruct r as [e|[]]; exact Hin).
  destruct (User_save_users _ _ _ _ Hs) as [Heq|[Heq Hvalid]];
    rewrite Heq in Hw'; simpl in Hw'; [contradiction|].
  apply in_app_or in Hw' as [Hold|[<-|[]]]; [contradiction|].
  split.
  - unfold User_schema_valid in Hvalid.
    apply andb_prop in Hvalid as [_ Hr].
    apply orb_prop in Hr as [Hr|Hr]; apply String.eqb_eq in Hr; auto.
  - intros Hnone. rewrite Hdoc. simpl. rewrite Hnone. reflexivity.
Qed.


End Authentication.

(* ================================================================== *)
(** ** Product creation, update and deletion                          *)
(* ================================================================== *)

Section Products.

Variable env : Env.

Lemma required_fields_check (body : ProductBody) :
  negb (truthy (b_name body)) || negb (truthy (b_description body))
  || negb (truthy (b_price body)) || negb (truthy (b_quantity body))
  || negb (truthy (b_category body)) || negb (truthy (b_subCategory body))
  = negb (required_fields_given body).
Proof.
  unfold required_fields_given.
  destruct (truthy (b_name body)), (truthy (b_description body)),
    (truthy (b_price body)), (truthy (b_quantity body)),
    (truthy (b_category body)), (truthy (b_subCategory body)); reflexivity.
Qed.

(** A document with a number that did not parse does not pass the
    schema. *)
Lemma parse_failure_invalid (body : ProductBody) (p : Product) :
  parse_failure body = true ->
  price p = parseFloat (b_price body) ->
  original_price p = optional_float (b_originalPrice body) ->
  quantity p = parseInt (of_param (b_quantity body)) ->
  Product_schema_valid p = false.
Proof.
  intros Hf Hp Ho Hq. unfold Product_schema_valid, parse_failure in *.
  rewrite Hp, Ho, Hq. unfold optional_float.
  destruct (truthy (b_price body)), (truthy (b_originalPrice body)),
    (truthy (b_quantity body)); simpl in Hf;
    destruct (parseFloat (b_price body)), (parseFloat (b_originalPrice body)),
      (parseInt (of_param (b_quantity body)));
    simpl in *; try discriminate;
    repeat rewrite andb_false_r; repeat rewrite andb_false_l; auto;
    repeat (match goal with
            | |- context [negb ?b] => destruct b; simpl
            end); auto.
Qed.

(** C10. An admin's create request that carries an image and lacks a
    required field: the image is uploaded first, so when the media host
    accepts it the answer is 400 and the image is on the media host all
    the same; when the media host fails the answer is 500, the fields
    not having been looked at. *)
Theorem upload_precedes_required_check
    (f : File) (body : ProductBody) (w : World) :
  required_fields_given body = false ->
  (forall url, cloudinary_upload env f = Some url ->
     response_of (post_product env (Some f) body) w =
       Some (mkResponse 400 (JMessage missing_fields)) /\
     world_after (post_product env (Some f) body) w =
       mkWorld (users w) (products w) (media w ++ [f]) (clock w)) /\
  (cloudinary_upload env f = None ->
     response_of (post_product env (Some f) body) w =
       Some (mkResponse 500 (JError "Server error" UploadError)) /\
     world_after (post_product env (Some f) body) w = w).
Proof.
  intros Hreq. unfold response_of, world_after, post_product, try_catch, bind,
    cloudinary_uploader_upload.
  rewrite required_fields_check, Hreq. simpl.
  split.
  - intros url ->. split; reflexivity.
  - intros ->. split; reflexivity.
Qed.

Lemma post_product_given (f : File) (body : ProductBody) (w : World)
    (url : string) (sp : list string) :
  required_fields_given body = true ->
  cloudinary_upload env f = Some url ->
  parsed_specs env (b_specs body) = Some sp ->
  exists doc w1,
    price doc = parseFloat (b_price body) /\
    original_price doc = optional_float (b_originalPrice body) /\
    quantity doc = parseInt (of_param (b_quantity body)) /\
    products w1 = products w /\
    post_product env (Some f) body w =
      if Product_schema_valid doc
      then (inr (mkResponse 201 (JProduct doc)),
            set_products (products w ++ [doc]) w1)
      else (inr (mkResponse 500 (JError "Server error" ValidationError)), w1).
Proof.
  intros Hreq Hup Hsp.
  unfold post_product, try_catch, bind, cloudinary_uploader_upload,
    parse_specs, Product_new, Product_save, send, ret, server_error.
  rewrite required_fields_check, Hreq, Hup, Hsp. simpl.
  exists (mkProduct (new_ObjectId env (clock w)) (str (b_name body))
            (str (b_description body)) (parseFloat (b_price body))
            (optional_float (b_originalPrice body))
            (parseInt (of_param (b_quantity body)))
            (str (b_category body)) (str (b_subCategory body))
            (Some url) sp (clock w)),
    (tick (mkWorld (users w) (products w) (media w ++ [f]) (clock w))).
  simpl. repeat (split; [reflexivity|]).
  match goal with
  | |- context [Product_schema_valid ?d] =>
      destruct (Product_schema_valid d); reflexivity
  end.
Qed.

(** Creation never touches the catalogue unless it answers 201. *)
Lemma post_product_failure_keeps_products
    (file : option File) (body : ProductBody) (w : World) :
  status_of (post_product env file body) w <> Some 201 ->
  products (world_after (post_product env file body) w) = products w.
Proof.
  unfold status_of, response_of, world_after, post_product, try_catch, bind,
    cloudinary_uploader_upload, parse_specs, Product_new, Product_save,
    send, ret, throw, server_error.
  destruct file as [f|]; simpl; auto.
  destruct (cloudinary_upload env f); simpl; auto.
  destruct (_ || _); simpl; auto.
  destruct (parsed_specs env (b_specs body)); simpl; auto.
  match goal with
  | |- context [Product_schema_valid ?d] => destruct (Product_schema_valid d)
  end; simpl; auto.
  intros H. exfalso. apply H. reflexivity.
Qed.

(** C1, as the code has it.  The numbers of a product are parsed and
    handed to the store with no check of what parsing gave.  A creation
    is answered 400 only for a missing image file or a missing required
    field: when the file and the required fields are there, a given
    number that does not parse makes the document invalid, the answer
    is 500 and the catalogue is left as it was.  On update the parsed
    values, [NaN] included, are the ones given to [findByIdAndUpdate],
    and the answer is 400 only when the store throws a [CastError]. *)
Theorem parse_failure_not_bad_request :
  (forall file body w,
     status_of (post_product env file body) w = Some 400 ->
     file = None \/ required_fields_given body = false) /\
  (forall f body w,
     required_fields_given body = true ->
     parse_failure body = true ->
     status_of (post_product env (Some f) body) w = Some 500 /\
     products (world_after (post_product env (Some f) body) w) = products w) /\
  (forall body sp img,
     set_price (update_of_body body sp img) = parseFloat (b_price body) /\
     set_original_price (update_of_body body sp img) =
       optional_float (b_originalPrice body) /\
     set_quantity (update_of_body body sp img) =
       parseInt (of_param (b_quantity body))) /\
  (forall id file body w,
     status_of (put_product env id file body) w = Some 400 ->
     is_ObjectId env id = false \/
     exists sp img,
       update_error env (update_of_body body sp img) = Some CastError).
Proof.
  split; [|split; [|split]].
  - intros file body w.
    unfold status_of, response_of, post_product, try_catch, bind,
      cloudinary_uploader_upload, parse_specs, Product_new, Product_save,
      send, ret, throw, server_error.
    destruct file as [f|]; simpl; [|auto].
    destruct (cloudinary_upload env f); simpl; [|discriminate].
    rewrite required_fields_check.
    destruct (required_fields_given body); simpl; [|auto].
    destruct (parsed_specs env (b_specs body)); simpl; [|discriminate].
    match goal with
    | |- context [Product_schema_valid ?d] => destruct (Product_schema_valid d)
    end; simpl; discriminate.
  - intros f body w Hreq Hfail.
    assert (Hst : status_of (post_product env (Some f) body) w = Some 500).
    { destruct (cloudinary_upload env f) as [url|] eqn:Hup.
      - destruct (parsed_specs env (b_specs body)) as [sp|] eqn:Hsp.
        + destruct (post_product_given f body w url sp Hreq Hup Hsp)
            as (doc & w1 & Hp & Ho & Hq & _ & Heq).
          unfold status_of, response_of. rewrite Heq.
          rewrite (parse_failure_invalid body doc Hfail Hp Ho Hq).
          reflexivity.
        + unfold status_of, response_of, post_product, try_catch, bind,
            cloudinary_uploader_upload, parse_specs.
          rewrite Hup, required_fields_check, Hreq, Hsp. reflexivity.
      - unfold status_of, response_of, post_product, try_catch, bind,
          cloudinary_uploader_upload.
        rewrite Hup. reflexivity. }
    split; [exact Hst|].
    apply post_product_failure_keeps_products. rewrite Hst. discriminate.
  - intros body sp img. repeat split.
  - intros id file body w.
    unfold status_of, response_of, put_product, try_catch, bind,
      cloudinary_uploader_upload, parse_specs, Product_findByIdAndUpdate,
      id_error, send, ret, throw.
    destruct file as [f|]; simpl.
    + destruct (cloudinary_upload env f) as [url|]; simpl;
        [|discriminate].
      destruct (parsed_specs env (b_specs body)) as [sp|]; simpl;
        [|discriminate].
      destruct (is_ObjectId env id); simpl; auto.
      destruct (update_error env _) as [[]|] eqn:Hu; simpl;
        try discriminate; eauto.
      destruct (find _ _); simpl; discriminate.
    + destruct (parsed_specs env (b_specs body)) as [sp|]; simpl;
        [|discriminate].
      destruct (is_ObjectId env id); simpl; auto.
      destruct (update_error env _) as [[]|] eqn:Hu; simpl;
        try discriminate; eauto.
      destruct (find _ _); simpl; discriminate.
Qed.

(** The [:id] routes of [server.js] tell a malformed identifier (400)
    from an unknown one (404). *)
Lemma delete_product_statuses (id : string) (w : World) :
  status_of (delete_product env id) w =
    Some (if negb (is_ObjectId env id) then 400
          else match find (has_id id) (products w) with
               | Some _ => 200
               | None => 404
               end).
Proof.
  unfold status_of, response_of, delete_product, try_catch, bind,
    Product_findByIdAndDelete, id_error, send, ret.
  destruct (is_ObjectId env id); simpl; [|reflexivity].
  destruct (find _ _); reflexivity.
Qed.

Lemma put_product_statuses (id : string) (body : ProductBody) (w : World)
    (sp : list string) :
  parsed_specs env (b_specs body) = Some sp ->
  update_error env (update_of_body body sp (b_imageUrl body)) = None ->
  status_of (put_product env id None body) w =
    Some (if negb (is_ObjectId env id) then 400
          else match find (has_id id) (products w) with
               | Some _ => 200
               | None => 404
               end).
Proof.
  intros Hsp Hu.
  unfold status_of, response_of, put_product, try_catch, bind, parse_specs,
    Product_findByIdAndUpdate, id_error, send, ret.
  rewrite Hsp. simpl.
  destruct (is_ObjectId env id); simpl; [|reflexivity].
  rewrite Hu. destruct (find _ _); reflexivity.
Qed.


(** In [routes/products.js] the [catch] blocks of [router.put] and
    [router.delete] do not look at the name of the error: past the
    admin check, a malformed identifier is answered 500. *)
Lemma router_malformed_id_is_server_error
    (user : option ReqUser) (id : string) (body : RouterBody) (w : World) :
  Router.not_admin user = false ->
  is_ObjectId env id = false ->
  response_of (Router.put env user id body) w =
    Some (mkResponse 500 (JError "Server Error" CastError)) /\
  response_of (Router.delete env user id) w =
    Some (mkResponse 500 (JError "Server Error" CastError)).
Proof.
  intros Hadmin Hid.
  unfold response_of, Router.put, Router.delete, try_catch, bind,
    Product_findByIdAndUpdate, Product_findByIdAndDelete.
  rewrite Hadmin, Hid. split; reflexivity.
Qed.

End Products.

(* ================================================================== *)
(** ** The product listings                                           *)
(* ================================================================== *)

Section Listings.

Variable env : Env.

Lemma insert_newest_In (p x : Product) (l : list Product) :
  In x (insert_newest p l) <-> x = p \/ In x l.
Proof.
  induction l as [|y l IH]; simpl.
  - intuition.
  - destruct (createdAt y <=? createdAt p)%nat; simpl; intuition.
Qed.

Lemma sort_newest_In (x : Product) (l : list Product) :
  In x (sort_newest l) <-> In x l.
Proof.
  induction l as [|y l IH]; simpl; [tauto|].
  rewrite insert_newest_In, IH. intuition.
Qed.

Lemma In_firstn_inv {A} (x : A) (n : nat) (l : list A) :
  In x (firstn n l) -> In x l.
Proof.
  revert l. induction n as [|n IH]; intros [|y l] H; simpl in *;
    try contradiction.
  destruct H as [H|H]; auto.
Qed.

Lemma In_skipn_inv {A} (x : A) (n : nat) (l : list A) :
  In x (skipn n l) -> In x l.
Proof.
  revert l. induction n as [|n IH]; intros [|y l] H; simpl in *; auto.
Qed.

(** A page of results is made of documents of the catalogue that pass
    the filter, and the query leaves the stores alone. *)
Lemma Product_find_sound (qy : Query) (s l : JsNum) (sorted : bool)
    (w w' : World) (found : list Product) :
  Product_find env qy s l sorted w = (inr found, w') ->
  w' = w /\
  forall p, In p found -> In p (products w) /\ matches qy p = true.
Proof.
  unfold Product_find. destruct (window env s l) as [[k b]|]; [|discriminate].
  intros H. injection H as Hfound Hw. subst w' found. split; [reflexivity|].
  intros p Hp. apply filter_In.
  set (found := filter (matches qy) (products w)) in *.
  assert (Hs : In p (skipn k (if sorted then sort_newest found else found))).
  { destruct b; [exact (In_firstn_inv _ _ _ Hp) | exact Hp]. }
  apply In_skipn_inv in Hs. destruct sorted; [apply sort_newest_In|]; exact Hs.
Qed.

(** The listing of [server.js], step by step. *)
Lemma get_products_run (q : ListQuery) (w : World) :
  get_products env q w =
    let page := of_param (query_page q) in
    let limit := with_default 9999 (query_limit q) in
    match search_filter env (query_search q) with
    | None => (inr (mkResponse 500 (JError "Server error" SyntaxError)), w)
    | Some or =>
        let query := mkQuery or (category_filter (query_category q)) in
        match Product_find env query (skip_arg page limit)
                (parseInt limit) true w with
        | (inl e, w') => (inr (mkResponse 500 (JError "Server error" e)), w')
        | (inr found, w') =>
            let total := length (filter (matches query) (products w')) in
            (inr (mkResponse 200
                    (JListing found (parseInt page)
                       (Math_ceil (div (Int (Z.of_nat total)) (parseInt limit)))
                       total)), w')
        end
    end.
Proof.
  unfold get_products, build_query, try_catch, bind, send, ret, throw,
    server_error, Product_countDocuments.
  destruct (search_filter env (query_search q)); [|reflexivity].
  cbv zeta. destruct (Product_find _ _ _ _ _ w) as [[e|found] w']; reflexivity.
Qed.

(** The listing of [routes/products.js], step by step. *)
Lemma router_get_run (q : ListQuery) (w : World) :
  Router.get env q w =
    let page := with_default 1 (query_page q) in
    let limit := with_default 9 (query_limit q) in
    match search_filter env (query_search q) with
    | None => (inr (mkResponse 500 (JError "Server Error" MongoServerError)), w)
    | Some or =>
        let query := mkQuery or (category_filter (query_category q)) in
        match Product_find env query (Router.skip_arg page limit)
                (parseInt limit) false w with
        | (inl e, w') => (inr (mkResponse 500 (JError "Server Error" e)), w')
        | (inr found, w') =>
            let total := length (filter (matches query) (products w')) in
            (inr (mkResponse 200
                    (JListing found (parseInt page)
                       (Math_ceil (div (Int (Z.of_nat total)) (ToNumber limit)))
                       total)), w')
        end
    end.
Proof.
  unfold Router.get, build_query, try_catch, bind, send, ret, throw,
    server_error, Product_countDocuments.
  destruct (search_filter env (query_search q)); [|reflexivity].
  cbv zeta. destruct (Product_find _ _ _ _ _ w) as [[e|found] w']; reflexivity.
Qed.

Lemma category_filter_given (c : string) :
  c <> "" -> c <> "All" -> category_filter (Some c) = Some c.
Proof.
  intros H1 H2. unfold category_filter, truthy, str.
  apply String.eqb_neq in H1, H2. rewrite H1, H2. reflexivity.
Qed.

(** C9. When the [category] parameter is given and is not ["All"],
    every product of the returned page has exactly this category; when
    it is ["All"] or absent the filter has no condition on the category:
    the products counted are all those the search retains. *)
Theorem category_filter_exact (q : ListQuery) (w : World) :
  (forall c,
     query_category q = Some c -> c <> "" -> c <> "All" ->
     forall p, In p (listed (get_products env q) w) -> category p = c) /\
  (query_category q = None \/ query_category q = Some "All" ->
   forall found cp tp total,
     response_of (get_products env q) w =
       Some (mkResponse 200 (JListing found cp tp total)) ->
     exists or,
       search_filter env (query_search q) = Some or /\
       total = length (filter (matches (mkQuery or None)) (products w))).
Proof.
  split.
  - intros c Hc Hne Hall p. unfold listed, response_of.
    rewrite get_products_run. cbv zeta.
    destruct (search_filter env (query_search q)) as [or|]; simpl;
      [|contradiction].
    rewrite Hc, (category_filter_given c Hne Hall).
    destruct (Product_find _ _ _ _ _ w) as [[e|found] w'] eqn:Hf; simpl;
      [contradiction|].
    intros Hp. destruct (Product_find_sound _ _ _ _ _ _ _ Hf) as [_ Hs].
    destruct (Hs p Hp) as [_ Hm]. unfold matches in Hm. simpl in Hm.
    apply andb_prop in Hm as [_ Hm]. apply String.eqb_eq in Hm. exact Hm.
  - intros Hcat found cp tp total. unfold response_of.
    rewrite get_products_run. cbv zeta.
    assert (category_filter (query_category q) = None) as ->
      by (destruct Hcat as [-> | ->]; reflexivity).
    destruct (search_filter env (query_search q)) as [or|]; simpl;
      [|discriminate].
    destruct (Product_find _ _ _ _ _ w) as [[e|fd] w'] eqn:Hf; simpl;
      [discriminate|].
    destruct (Product_find_sound _ _ _ _ _ _ _ Hf) as [-> _].
    intros H. inversion H; subst. exists or. split; reflexivity.
Qed.

(** [Math.ceil(t / n)] for a positive integer [n] is the ceiling of the
    quotient of the integers. *)
Lemma ceil_div_int (t n : Z) :
  0 < n -> Math_ceil (div (Int t) (Int n)) = Int (- ((- t) / n)).
Proof.
  intros Hn. unfold div, Int, Qis_zero. simpl Qnum.
  destruct (Z.eqb_spec n 0) as [->|_]; [lia|].
  unfold Math_ceil, Int. do 2 f_equal.
  rewrite Qred_correct.
  assert (Hq : inject_Z t / inject_Z n == t # Z.to_pos n).
  { rewrite Qmake_Qdiv, Z2Pos.id by exact Hn. reflexivity. }
  rewrite Hq. unfold Qceiling, Qfloor. simpl.
  rewrite Z2Pos.id by exact Hn. reflexivity.
Qed.

Lemma ceiling_bounds (t n : Z) :
  0 < n -> (- ((- t) / n) - 1) * n < t <= - ((- t) / n) * n.
Proof.
  intros Hn.
  pose proof (Z.div_mod (- t) n ltac:(lia)) as Hdm.
  pose proof (Z.mod_pos_bound (- t) n Hn) as Hb.
  nia.
Qed.

(** C8. When [limit] reads as a positive integer [n], a listing that
    is answered has [totalPages] the ceiling of [totalProducts / n]:
    the integer [k] with [(k - 1) * n < totalProducts <= k * n]; and
    [totalProducts] counts the documents passing the filter of the very
    query that gave the page. *)
Theorem total_pages_is_ceiling (q : ListQuery) (w : World) (n : Z)
    (found : list Product) (cp tp : JsNum) (total : nat) :
  parseInt (with_default 9999 (query_limit q)) = Int n ->
  0 < n ->
  response_of (get_products env q) w =
    Some (mkResponse 200 (JListing found cp tp total)) ->
  (exists k, tp = Int k /\ (k - 1) * n < Z.of_nat total <= k * n) /\
  (exists query skip,
     Product_find env query skip (Int n) true w = (inr found, w) /\
     total = length (filter (matches query) (products w))).
Proof.
  intros Hlim Hn. unfold response_of. rewrite get_products_run. cbv zeta.
  destruct (search_filter env (query_search q)) as [or|]; simpl;
    [|discriminate].
  rewrite Hlim.
  destruct (Product_find _ _ _ _ _ w) as [[e|fd] w'] eqn:Hf; simpl;
    [discriminate|].
  destruct (Product_find_sound _ _ _ _ _ _ _ Hf) as [-> _].
  intros H. injection H as Hfd Hcp Htp Htot. subst fd.
  split.
  - exists (- ((- Z.of_nat total) / n)). split.
    + rewrite <- Htp, Htot. apply ceil_div_int. exact Hn.
    + apply ceiling_bounds. exact Hn.
  - eexists _, _. split; [exact Hf|]. symmetry. exact Htot.
Qed.

Lemma skip_arg_NaN (page limit : JsVal) :
  parseInt page = NaN \/ parseInt limit = NaN -> skip_arg page limit = NaN.
Proof.
  unfold skip_arg. intros [-> | ->]; [reflexivity|].
  destruct (sub (parseInt page) (Int 1)); reflexivity.
Qed.

Lemma router_skip_arg_NaN (page limit : JsVal) :
  ToNumber page = NaN \/ ToNumber limit = NaN ->
  Router.skip_arg page limit = NaN.
Proof.
  unfold Router.skip_arg. intros [-> | ->]; [reflexivity|].
  destruct (sub (ToNumber page) (Int 1)); reflexivity.
Qed.

(** C2, as the code has it.  A listing is never answered 400: the
    statuses are 200 and 500.  The router's listing treats an absent
    [page] as page 1.  A [page] or a [limit] that is given and is not a
    number is not rejected: it is [NaN] in the [skip] and the [limit]
    handed to the store query, and [currentPage] is what [parseInt]
    made of [page], [NaN] included. *)
Theorem listing_never_bad_request (q : ListQuery) (w : World) :
  (status_of (get_products env q) w = Some 200 \/
   status_of (get_products env q) w = Some 500) /\
  (status_of (Router.get env q) w = Some 200 \/
   status_of (Router.get env q) w = Some 500) /\
  (query_page q = None ->
   Router.get env q w =
     Router.get env (mkListQuery (Some "1") (query_limit q) (query_search q)
                       (query_category q)) w) /\
  (forall s, query_page q = Some s -> parseInt (VStr s) = NaN ->
     skip_arg (of_param (query_page q)) (with_default 9999 (query_limit q))
       = NaN) /\
  (forall s, query_limit q = Some s -> parseInt (VStr s) = NaN ->
     skip_arg (of_param (query_page q)) (with_default 9999 (query_limit q))
       = NaN /\
     parseInt (with_default 9999 (query_limit q)) = NaN) /\
  (forall s, query_page q = Some s -> ToNumber (VStr s) = NaN ->
     Router.skip_arg (with_default 1 (query_page q))
       (with_default 9 (query_limit q)) = NaN) /\
  (forall found cp tp total,
     response_of (get_products env q) w =
       Some (mkResponse 200 (JListing found cp tp total)) ->
     cp = parseInt (of_param (query_page q))).
Proof.
  split; [|split; [|split; [|split; [|split; [|split]]]]].
  - unfold status_of, response_of. rewrite get_products_run. cbv zeta.
    destruct (search_filter env (query_search q)); simpl; auto.
    destruct (Product_find _ _ _ _ _ w) as [[e|fd] w']; simpl; auto.
  - unfold status_of, response_of. rewrite router_get_run. cbv zeta.
    destruct (search_filter env (query_search q)); simpl; auto.
    destruct (Product_find _ _ _ _ _ w) as [[e|fd] w']; simpl; auto.
  - intros Hp. rewrite !router_get_run. simpl. rewrite Hp. reflexivity.
  - intros s Hs Hn. apply skip_arg_NaN. left. rewrite Hs. exact Hn.
  - intros s Hs Hn. split.
    + apply skip_arg_NaN. right. rewrite Hs. exact Hn.
    + rewrite Hs. exact Hn.
  - intros s Hs Hn. apply router_skip_arg_NaN. left. rewrite Hs. exact Hn.
  - intros found cp tp total. unfold response_of.
    rewrite get_products_run. cbv zeta.
    destruct (search_filter env (query_search q)); simpl; [|discriminate].
    destruct (Product_find _ _ _ _ _ w) as [[e|fd] w']; simpl;
      [discriminate|].
    intros H. injection H as _ Hcp _ _. symmetry. exact Hcp.
Qed.

End Listings.

(* ================================================================== *)
(** ** The search of the listings                                     *)
(* ================================================================== *)

Section SearchFilter.

Variable env : Env.

Lemma parse_atoms_literal (s : string) :
  has_syntax_char s = false ->
  parse_atoms s = Some (map Chr (list_ascii_of_string s)).
Proof.
  unfold has_syntax_char.
  induction s as [|c s IH]; simpl; [reflexivity|].
  intros H. apply orb_false_elim in H as [Hc Hs].
  rewrite (IH Hs).
  assert (Hdot : Ascii.eqb c "." = false).
  { unfold syntax_char in Hc. simpl in Hc.
    repeat (apply orb_false_elim in Hc as [? Hc]). assumption. }
  rewrite Hdot, Hc. reflexivity.
Qed.

Lemma atoms_prefix_literal (nl : ascii -> bool) (s t : string) :
  atoms_prefix nl (map Chr (list_ascii_of_string s)) t = ci_prefix s t.
Proof.
  revert t. induction s as [|c s IH]; intros [|d t]; simpl; auto.
  rewrite IH. reflexivity.
Qed.

Lemma atoms_search_literal (nl : ascii -> bool) (s t : string) :
  atoms_search nl (map Chr (list_ascii_of_string s)) t = ci_substring s t.
Proof.
  induction t as [|d t IH]; simpl.
  - rewrite atoms_prefix_literal. reflexivity.
  - rewrite IH. f_equal. apply (atoms_prefix_literal nl s (String d t)).
Qed.

(** C7, as the code has it.  The search string is compiled as a
    regular expression.  When it has none of the syntax characters
    [^ $ \ . * + ? ( ) [ ] { } |] the filter retains exactly the
    products one of whose name, description, category, subcategory or
    specs contains it up to letter case (and that pass the category
    filter). *)
Theorem search_without_syntax_chars
    (s : string) (cat : option string) (bad : Exn) (w : World) :
  s <> "" ->
  has_syntax_char s = false ->
  exists query,
    build_query env bad (Some s) cat w = (inr query, w) /\
    forall p,
      matches query p =
        spec_search_match s p &&
        match category_filter cat with
        | Some c => String.eqb (category p) c
        | None => true
        end.
Proof.
  intros Hne Hlit. unfold build_query, search_filter, RegExp_i, truthy, str.
  apply String.eqb_neq in Hne. rewrite Hne. simpl.
  rewrite (parse_atoms_literal s Hlit). unfold ret.
  eexists. split; [reflexivity|].
  intros p. unfold matches, spec_search_match. simpl.
  rewrite !atoms_search_literal. f_equal. f_equal.
  induction (specs p) as [|x l IH]; simpl; [reflexivity|].
  rewrite atoms_search_literal, IH. reflexivity.
Qed.

End SearchFilter.

(* ================================================================== *)
(** ** The theorems on concrete requests                              *)
(* ================================================================== *)

Lemma register_existing_username_conflict_witness :
  stored_user Demo.world "alice" = Some Demo.alice /\
  world_after (register Demo.env Demo.alice_again) Demo.world = Demo.world /\
  response_of (register Demo.env Demo.alice_again) Demo.world =
    Some (mkResponse 409 (JMessage "Username already exists")).
Proof.
  split; [reflexivity|].
  destruct (register_existing_username_conflict Demo.env Demo.alice_again
              Demo.world Demo.alice eq_refl) as [Hsame Hconflict].
  split; [exact Hsame | apply Hconflict; reflexivity].
Defined.

(** The example of the specification: registering [alice] gives 201
    and a [userId], registering her again gives 409. *)
Example register_twice :
  let first := register Demo.env Demo.alice_again Demo.nobody in
  fst first =
    inr (mkResponse 201
           (JRegistered "User registered successfully"
              (new_ObjectId Demo.env 0) "alice")) /\
  status_of (register Demo.env Demo.alice_again) (snd first) = Some 409.
Proof. split; reflexivity. Qed.

(** A [limit] of [0] has no ceiling to give: the quotient is infinite. *)
Example total_pages_limit_zero :
  Math_ceil (div (Int 5) (parseInt (VStr "0"))) = Infinity false.
Proof. reflexivity. Qed.

Lemma registered_role_witness :
  In Demo.bob
    (users (world_after (register Demo.env Demo.bob_registers) Demo.world)) /\
  (role Demo.bob = "user" \/ role Demo.bob = "admin") /\
  (c_role Demo.bob_registers = None -> role Demo.bob = "user").
Proof.
  assert (Hin : In Demo.bob
            (users (world_after (register Demo.env Demo.bob_registers)
                      Demo.world)))
    by (vm_compute; right; left; reflexivity).
  split; [exact Hin|].
  apply (registered_role Demo.env Demo.bob_registers Demo.world Demo.bob Hin).
  simpl. intros [H|[]]. discriminate H.
Defined.


Lemma upload_precedes_required_check_witness :
  required_fields_given Demo.empty_body = false /\
  response_of (post_product Demo.env (Some Demo.photo) Demo.empty_body)
    Demo.world = Some (mkResponse 400 (JMessage missing_fields)) /\
  world_after (post_product Demo.env (Some Demo.photo) Demo.empty_body)
    Demo.world =
    mkWorld (users Demo.world) (products Demo.world)
      (media Demo.world ++ [Demo.photo]) (clock Demo.world).
Proof.
  split; [reflexivity|].
  destruct (upload_precedes_required_check Demo.env Demo.photo
              Demo.empty_body Demo.world eq_refl) as [Hok _].
  apply (Hok "https://media.example/png-bytes"). reflexivity.
Defined.

(** C1 fails as stated: a creation whose price is ["abc"] is answered
    500, not 400. *)
Lemma parse_failure_counterexample :
  required_fields_given Demo.priced_abc = true /\
  parseFloat (b_price Demo.priced_abc) = NaN /\
  response_of (post_product Demo.env (Some Demo.photo) Demo.priced_abc)
    Demo.world =
    Some (mkResponse 500 (JError "Server error" ValidationError)) /\
  status_of (post_product Demo.env (Some Demo.photo) Demo.priced_abc)
    Demo.world <> Some 400.
Proof.
  repeat split; try reflexivity. vm_compute. discriminate.
Qed.

Lemma parse_failure_not_bad_request_witness :
  parse_failure Demo.priced_abc = true /\
  required_fields_given Demo.priced_abc = true /\
  (status_of (post_product Demo.env (Some Demo.photo) Demo.priced_abc)
     Demo.world = Some 500 /\
   products
     (world_after (post_product Demo.env (Some Demo.photo) Demo.priced_abc)
        Demo.world) = products Demo.world) /\
  is_ObjectId Demo.env (Demo.new_ObjectId 2) = true /\
  status_of (put_product Demo.env (Demo.new_ObjectId 2) None Demo.priced_abc)
    Demo.world = Some 400 /\
  (exists sp img,
     update_error Demo.env (update_of_body Demo.priced_abc sp img) =
       Some CastError).
Proof.
  destruct (parse_failure_not_bad_request Demo.env)
    as (_ & Hcreate & _ & Hupdate).
  split; [reflexivity|]. split; [reflexivity|].
  split; [apply Hcreate; reflexivity|].
  split; [reflexivity|]. split; [reflexivity|].
  destruct (Hupdate (Demo.new_ObjectId 2) None Demo.priced_abc Demo.world
              eq_refl) as [Hid|Hcast].
  - vm_compute in Hid. discriminate Hid.
  - exact Hcast.
Defined.


Lemma router_malformed_id_is_server_error_witness :
  is_ObjectId Demo.env "bad-id" = false /\
  response_of
    (Router.put Demo.env Demo.admin "bad-id" Demo.empty_router_body)
    Demo.world = Some (mkResponse 500 (JError "Server Error" CastError)) /\
  response_of (Router.delete Demo.env Demo.admin "bad-id") Demo.world =
    Some (mkResponse 500 (JError "Server Error" CastError)).
Proof.
  split; [reflexivity|].
  apply (router_malformed_id_is_server_error Demo.env Demo.admin "bad-id"
           Demo.empty_router_body Demo.world); reflexivity.
Defined.

(** The same identifier on the routes of [server.js]: 400. *)
Example server_malformed_id :
  status_of (put_product Demo.env "bad-id" None Demo.empty_body) Demo.world
  = Some 400 /\
  status_of (delete_product Demo.env "bad-id") Demo.world = Some 400 /\
  status_of (delete_product Demo.env (Demo.new_ObjectId 99)) Demo.world
  = Some 404.
Proof. repeat split. Qed.

(** The example of the specification: five products in [Gloves],
    page 2 of size 2 has the third and the fourth newest, of 3 pages. *)
Example gloves_second_page :
  response_of (get_products Demo.env Demo.gloves_page2) Demo.world =
    Some (mkResponse 200
            (JListing [Demo.glove 4 "Glove XL" "Gloves";
                       Demo.glove 3 "Work glove" "Gloves"]
               (Int 2) (Int 3) 5)).
Proof. reflexivity. Qed.

Lemma total_pages_is_ceiling_witness :
  (exists k, Int 3 = Int k /\ (k - 1) * 2 < Z.of_nat 5 <= k * 2) /\
  (exists query skip,
     Product_find Demo.env query skip (Int 2) true Demo.world =
       (inr [Demo.glove 4 "Glove XL" "Gloves";
             Demo.glove 3 "Work glove" "Gloves"], Demo.world) /\
     5%nat = length (filter (matches query) (products Demo.world))).
Proof.
  apply (total_pages_is_ceiling Demo.env Demo.gloves_page2 Demo.world 2
           [Demo.glove 4 "Glove XL" "Gloves";
            Demo.glove 3 "Work glove" "Gloves"] (Int 2) (Int 3) 5).
  - reflexivity.
  - lia.
  - reflexivity.
Defined.

Lemma category_filter_exact_witness :
  Forall (fun p => category p = "Gloves")
    (listed (get_products Demo.env Demo.gloves_page2) Demo.world) /\
  length (listed (get_products Demo.env Demo.gloves_page2) Demo.world) = 2%nat.
Proof.
  split; [|reflexivity].
  apply Forall_forall. intros p Hp.
  destruct (category_filter_exact Demo.env Demo.gloves_page2 Demo.world)
    as [Hexact _].
  apply (Hexact "Gloves");
    [reflexivity | discriminate | discriminate | exact Hp].
Defined.

(** C2 fails as stated: [page=abc] is not answered 400.  [skip] is
    [NaN]; the answer is 500 when the driver refuses it, and 200 with
    [currentPage] [NaN] when the driver lets it pass. *)
Lemma non_numeric_page_counterexample :
  skip_arg (of_param (query_page Demo.page_abc))
    (with_default 9999 (query_limit Demo.page_abc)) = NaN /\
  status_of (get_products Demo.env Demo.page_abc) Demo.world = Some 500 /\
  status_of (Router.get Demo.env Demo.page_abc) Demo.world = Some 500 /\
  (exists found tp total,
     response_of (get_products Demo.lenient Demo.page_abc) Demo.world =
       Some (mkResponse 200 (JListing found NaN tp total))).
Proof.
  repeat split. eexists _, _, _. reflexivity.
Qed.

Lemma listing_never_bad_request_witness :
  (status_of (get_products Demo.env Demo.page_abc) Demo.world = Some 200 \/
   status_of (get_products Demo.env Demo.page_abc) Demo.world = Some 500) /\
  Router.get Demo.env (mkListQuery None (Some "2") None None) Demo.world =
    Router.get Demo.env (mkListQuery (Some "1") (Some "2") None None)
      Demo.world /\
  skip_arg (of_param (query_page Demo.page_abc))
    (with_default 9999 (query_limit Demo.page_abc)) = NaN /\
  Router.skip_arg (with_default 1 (query_page Demo.page_abc))
    (with_default 9 (query_limit Demo.page_abc)) = NaN.
Proof.
  destruct (listing_never_bad_request Demo.env Demo.page_abc Demo.world)
    as (Hst & _ & _ & Hpage & _ & Hrouter & _).
  destruct (listing_never_bad_request Demo.env
              (mkListQuery None (Some "2") None None) Demo.world)
    as (_ & _ & Habsent & _).
  split; [exact Hst|]. split; [apply Habsent; reflexivity|].
  split; [apply (Hpage "abc"); reflexivity|].
  apply (Hrouter "abc"); reflexivity.
Defined.

(** C7 fails as stated: the search [a.c] retains a product named
    [abc glove], none of whose fields contains [a.c]. *)
Lemma search_wildcard_counterexample :
  In (Demo.glove 1 "abc glove" "Gloves")
    (listed (get_products Demo.env Demo.search_a_dot_c) Demo.world) /\
  spec_search_match "a.c" (Demo.glove 1 "abc glove" "Gloves") = false.
Proof.
  split; [|reflexivity]. vm_compute. left. reflexivity.
Qed.

Lemma search_without_syntax_chars_witness :
  exists query,
    build_query Demo.env SyntaxError (Some "glove") (Some "Gloves") Demo.world
      = (inr query, Demo.world) /\
    forall p,
      matches query p =
        spec_search_match "glove" p &&
        match category_filter (Some "Gloves") with
        | Some c => String.eqb (category p) c
        | None => true
        end.
Proof.
  apply (search_without_syntax_chars Demo.env "glove" (Some "Gloves")
           SyntaxError Demo.world).
  - discriminate.
  - reflexivity.
Defined.

(* ================================================================== *)
(** ** Registration and login, further                                *)
(* ================================================================== *)

Section Accounts.

Variable env : Env.

Lemma NoDup_snoc {A} (l : list A) (x : A) :
  NoDup l -> ~ In x l -> NoDup (l ++ [x]).
Proof.
  induction l as [|y l IH]; simpl; intros Hnd Hx.
  - constructor; [intros []|constructor].
  - inversion Hnd as [|? ? Hy Hl]; subst. constructor.
    + intros Hin. apply in_app_or in Hin as [Hin|[->|[]]]; auto.
    + apply IH; auto.
Qed.

Lemma stored_user_none_existsb (w : World) (uname : string) :
  stored_user w uname = None ->
  existsb (fun v => String.eqb (username v) uname) (users w) = false.
Proof.
  unfold stored_user. induction (users w) as [|v l IH]; simpl; [reflexivity|].
  destruct (String.eqb (username v) uname); [discriminate|exact IH].
Qed.

Lemma stored_user_app (w : World) (l : list User) (u : User) :
  users w = (l ++ [u])%list ->
  find (fun v => String.eqb (username v) (username u)) l = None ->
  stored_user w (username u) = Some u.
Proof.
  unfold stored_user. intros -> Hl.
  induction l as [|v l IH]; simpl in *.
  - rewrite String.eqb_refl. reflexivity.
  - destruct (String.eqb (username v) (username u)); [discriminate|auto].
Qed.

(** What [register] does to the stores, case by case. *)
Lemma register_cases (body : Credentials) (w : World) :
  let w' := world_after (register env body) w in
  products w' = products w /\ media w' = media w /\
  ((status_of (register env body) w = Some 201 /\
    users w' = (users w ++ [new_user env body w])%list /\
    validated body = true /\
    stored_user w (str (c_username body)) = None /\
    User_schema_valid (new_user env body w) = true) \/
   (status_of (register env body) w <> Some 201 /\ users w' = users w)).
Proof.
  unfold world_after, status_of, response_of. cbv zeta.
  destruct (validated body) eqn:Hv.
  2:{ rewrite (register_not_validated env _ _ Hv). simpl.
      repeat split. right. split; [discriminate|reflexivity]. }
  rewrite (register_validated env _ _ Hv).
  destruct (stored_user w (str (c_username body))) eqn:Hu; simpl.
  { repeat split. right. split; [discriminate|reflexivity]. }
  fold (new_user env body w). unfold User_save.
  destruct (User_schema_valid (new_user env body w)) eqn:Hok; simpl.
  2:{ repeat split. right. split; [discriminate|reflexivity]. }
  change (username (new_user env body w)) with (str (c_username body)).
  rewrite (stored_user_none_existsb _ _ Hu). simpl.
  repeat split. left. repeat split.
Qed.

(** X1. Registration never stores the password it was given: the document
    it appends, and only on 201, carries [bcrypt.hash(password, 10)];
    the documents already stored, the catalogue and the media host are
    left as they were. *)
Theorem register_appends_hashed (body : Credentials) (w : World) :
  let w' := world_after (register env body) w in
  products w' = products w /\ media w' = media w /\
  ((status_of (register env body) w = Some 201 /\
    exists u,
      users w' = (users w ++ [u])%list /\
      username u = str (c_username body) /\
      password u = bcrypt_hash env (str (c_password body)) /\
      role u = or_else (c_role body) "user") \/
   (status_of (register env body) w <> Some 201 /\ users w' = users w)).
Proof.
  destruct (register_cases body w) as (Hp & Hm & [H|H]).
  - split; [exact Hp|]. split; [exact Hm|]. left.
    destruct H as (Hst & Hus & _). split; [exact Hst|].
    exists (new_user env body w). repeat split. exact Hus.
  - split; [exact Hp|]. split; [exact Hm|]. right. exact H.
Qed.

(** X2. Usernames stay unique: when no two stored users share a username,
    none do after a registration, whatever the request. *)
Theorem register_keeps_usernames_unique (body : Credentials) (w : World) :
  NoDup (usernames w) ->
  NoDup (usernames (world_after (register env body) w)).
Proof.
  intros Hnd. unfold usernames in *.
  destruct (register_cases body w) as (_ & _ & [H|[_ ->]]); [|exact Hnd].
  destruct H as (_ & -> & _ & Hu & _).
  rewrite map_app. simpl. apply NoDup_snoc; [exact Hnd|].
  intros Hin. apply in_map_iff in Hin as (v & Hv & Hin).
  apply stored_user_none_existsb in Hu.
  assert (Hex : existsb
                  (fun v => String.eqb (username v) (str (c_username body)))
                  (users w) = true).
  { apply existsb_exists. exists v. split; [exact Hin|].
    apply String.eqb_eq. exact Hv. }
  congruence.
Qed.

(** X3. A request that lacks the username or the password, or gives it
    empty, is answered 400 by [register] and by [login] alike, and
    nothing is looked up or written. *)
Theorem missing_credentials_rejected (body : Credentials) (w : World) :
  validated body = false ->
  register env body w =
    (inr (mkResponse 400 (JMessage "Username and password are required")), w)
  /\
  login env body w =
    (inr (mkResponse 400 (JMessage "Username and password are required")), w).
Proof.
  intros Hv. split; [apply register_not_validated; exact Hv|].
  unfold validated in Hv. unfold login.
  assert (negb (truthy (c_username body)) || negb (truthy (c_password body))
          = true) as ->.
  { destruct (truthy (c_username body)), (truthy (c_password body));
      simpl in *; congruence. }
  reflexivity.
Qed.

(** X4. Round trip: after a registration that succeeds, a login with the
    same username and password is answered 200 with the token signed
    for the new user and with the role registered, provided
    [bcrypt.compare] accepts a password against its own hash. *)
Theorem register_then_login (body : Credentials) (w : World) :
  status_of (register env body) w = Some 201 ->
  bcrypt_compare env (str (c_password body))
    (bcrypt_hash env (str (c_password body))) = true ->
  response_of (login env body) (world_after (register env body) w) =
    Some (mkResponse 200
            (JLogin "Login successful"
               (jwt_sign env (new_ObjectId env (clock w))
                  (str (c_username body)) (or_else (c_role body) "user"))
               (or_else (c_role body) "user"))).
Proof.
  intros Hst Hcmp.
  destruct (register_cases body w) as (_ & _ & [H|[H _]]); [|contradiction].
  destruct H as (_ & Hus & Hv & Hu & _).
  assert (Hfound : stored_user (world_after (register env body) w)
                     (str (c_username body)) = Some (new_user env body w)).
  { apply (stored_user_app _ (users w) (new_user env body w) Hus). exact Hu. }
  unfold response_of, login. rewrite (validated_checks _ Hv).
  unfold try_catch, bind, User_findOne, send, ret.
  unfold stored_user in Hfound. rewrite Hfound. simpl.
  rewrite Hcmp. reflexivity.
Qed.

End Accounts.

(* ================================================================== *)
(** ** The catalogue: creation, lookup, update, deletion, further     *)
(* ================================================================== *)

Section Catalogue.

Variable env : Env.

Lemma lower_hex_digit_idem (c : ascii) :
  lower_hex_digit (lower_hex_digit c) = lower_hex_digit c.
Proof. destruct c as [[] [] [] [] [] [] [] []]; reflexivity. Qed.

Lemma lower_hex_idem (s : string) : lower_hex (lower_hex s) = lower_hex s.
Proof.
  induction s as [|c r IH]; simpl; [reflexivity|].
  rewrite lower_hex_digit_idem, IH. reflexivity.
Qed.

Lemma lower_hex_length (s : string) :
  String.length (lower_hex s) = String.length s.
Proof. induction s as [|c r IH]; simpl; [reflexivity|]. rewrite IH. reflexivity. Qed.

Lemma hex_encode_length (s : string) :
  String.length (hex_encode s) = (2 * String.length s)%nat.
Proof. induction s as [|c r IH]; simpl; [reflexivity|]. rewrite IH. lia. Qed.

Lemma lower_hex_hex_encode (s : string) :
  lower_hex (hex_encode s) = hex_encode s.
Proof.
  induction s as [|c r IH]; simpl; [reflexivity|].
  rewrite IH. f_equal; [|f_equal];
    destruct c as [[] [] [] [] [] [] [] []]; reflexivity.
Qed.

(** An identifier as the store writes it is cast to itself. *)
Lemma ObjectId_hex_idem (s : string) :
  ObjectId_hex (ObjectId_hex s) = ObjectId_hex s.
Proof.
  unfold ObjectId_hex.
  destruct (Nat.eqb_spec (String.length s) 12) as [H12|Hn].
  - rewrite hex_encode_length, H12. simpl. apply lower_hex_hex_encode.
  - rewrite lower_hex_length.
    destruct (Nat.eqb_spec (String.length s) 12); [contradiction|].
    apply lower_hex_idem.
Qed.

Lemma new_ObjectId_written (n : nat) :
  ObjectId_hex (new_ObjectId env n) = new_ObjectId env n.
Proof. unfold new_ObjectId. apply ObjectId_hex_idem. Qed.

Lemma has_id_eq (id : string) (p : Product) :
  has_id id p = true <-> product_id p = ObjectId_hex id.
Proof. unfold has_id. apply String.eqb_eq. Qed.

Lemma find_has_id (id : string) (l : list Product) (p : Product) :
  find (has_id id) l = Some p -> In p l /\ product_id p = ObjectId_hex id.
Proof.
  intros H. apply find_some in H as [Hin Hid]. split; [exact Hin|].
  apply has_id_eq. exact Hid.
Qed.

Lemma find_has_id_fresh (id : string) (l : list Product) :
  (forall p, In p l -> product_id p <> ObjectId_hex id) ->
  find (has_id id) l = None.
Proof.
  induction l as [|x l IH]; simpl; intros H; [reflexivity|].
  destruct (has_id id x) eqn:Hx.
  - apply has_id_eq in Hx. exfalso. apply (H x); auto.
  - apply IH. intros p Hp. apply H. auto.
Qed.

Lemma find_has_id_snoc (l : list Product) (p : Product) :
  ObjectId_hex (product_id p) = product_id p ->
  (forall x, In x l -> product_id x <> product_id p) ->
  find (has_id (product_id p)) (l ++ [p]) = Some p.
Proof.
  intros Hw. induction l as [|x l IH]; simpl; intros H.
  - unfold has_id. rewrite Hw, String.eqb_refl. reflexivity.
  - destruct (has_id (product_id p) x) eqn:Hx.
    + apply has_id_eq in Hx. rewrite Hw in Hx. exfalso. apply (H x); auto.
    + apply IH. intros y Hy. apply H. auto.
Qed.

Lemma find_replace_first (id : string) (p p' : Product) (l : list Product) :
  find (has_id id) l = Some p ->
  product_id p' = product_id p ->
  find (has_id id) (replace_first id p' l) = Some p'.
Proof.
  intros Hf Hid.
  assert (Hp' : has_id id p' = true).
  { apply has_id_eq. rewrite Hid. apply (find_has_id _ _ _ Hf). }
  induction l as [|x l IH]; simpl in *; [discriminate|].
  destruct (has_id id x) eqn:Hx; simpl.
  - rewrite Hp'. reflexivity.
  - rewrite Hx. apply IH. exact Hf.
Qed.

Lemma map_replace_first {A} (f : Product -> A) (id : string)
    (p p' : Product) (l : list Product) :
  find (has_id id) l = Some p ->
  f p' = f p ->
  map f (replace_first id p' l) = map f l.
Proof.
  intros Hf Heq. induction l as [|x l IH]; simpl in *; [reflexivity|].
  destruct (has_id id x); simpl.
  - injection Hf as ->. rewrite Heq. reflexivity.
  - rewrite IH by exact Hf. reflexivity.
Qed.

Lemma remove_first_In (id : string) (x : Product) (l : list Product) :
  product_id x <> ObjectId_hex id ->
  (In x (remove_first id l) <-> In x l).
Proof.
  intros Hx. induction l as [|y l IH]; simpl; [tauto|].
  destruct (has_id id y) eqn:Hy; simpl.
  - apply has_id_eq in Hy. split; [auto|].
    intros [->|H]; [contradiction|exact H].
  - rewrite IH. tauto.
Qed.

Lemma remove_first_subset (id : string) (x : Product) (l : list Product) :
  In x (remove_first id l) -> In x l.
Proof.
  induction l as [|y l IH]; simpl; [tauto|].
  destruct (has_id id y); simpl; intuition.
Qed.

Lemma remove_first_gone (id : string) (l : list Product) :
  NoDup (map product_id l) ->
  forall x, In x (remove_first id l) -> product_id x <> ObjectId_hex id.
Proof.
  induction l as [|y l IH]; simpl; intros Hnd x Hx; [contradiction|].
  inversion Hnd as [|? ? Hy Hl]; subst.
  destruct (has_id id y) eqn:Hid; simpl in Hx.
  - apply has_id_eq in Hid. intros Heq. apply Hy.
    rewrite Hid, <- Heq. apply in_map. exact Hx.
  - destruct Hx as [<-|Hx].
    + intros Heq. apply has_id_eq in Heq. congruence.
    + apply IH; assumption.
Qed.

Lemma remove_first_length (id : string) (p : Product) (l : list Product) :
  find (has_id id) l = Some p ->
  S (length (remove_first id l)) = length l.
Proof.
  induction l as [|y l IH]; simpl; [discriminate|].
  destruct (has_id id y); simpl; auto.
Qed.

(** The lookup by identifier, step by step, on both routers. *)
Lemma get_product_run (id : string) (w : World) :
  get_product env id w =
    if negb (is_ObjectId env id)
    then (inr (mkResponse 400 (JMessage "Invalid product ID format")), w)
    else match find (has_id id) (products w) with
         | Some p => (inr (mkResponse 200 (JProduct p)), w)
         | None => (inr (mkResponse 404 (JMessage "Product not found")), w)
         end.
Proof.
  unfold get_product, try_catch, bind, Product_findById, id_error, send, ret.
  destruct (is_ObjectId env id); simpl; [|reflexivity].
  destruct (find _ _); reflexivity.
Qed.

Lemma router_get_by_id_run (id : string) (w : World) :
  Router.get_by_id env id w =
    if negb (is_ObjectId env id)
    then (inr (mkResponse 500 (JError "Server Error" CastError)), w)
    else match find (has_id id) (products w) with
         | Some p => (inr (mkResponse 200 (JProduct p)), w)
         | None => (inr (mkResponse 404 (JMessage "Product not found")), w)
         end.
Proof.
  unfold Router.get_by_id, try_catch, bind, Product_findById, server_error,
    send, ret.
  destruct (is_ObjectId env id); simpl; [|reflexivity].
  destruct (find _ _); reflexivity.
Qed.

Lemma delete_product_run (id : string) (w : World) :
  delete_product env id w =
    if negb (is_ObjectId env id)
    then (inr (mkResponse 400 (JMessage "Invalid product ID format")), w)
    else match find (has_id id) (products w) with
         | Some p =>
             (inr (mkResponse 200 (JMessage "Product deleted successfully")),
              set_products (remove_first id (products w)) w)
         | None => (inr (mkResponse 404 (JMessage "Product not found")), w)
         end.
Proof.
  unfold delete_product, try_catch, bind, Product_findByIdAndDelete, id_error,
    send, ret.
  destruct (is_ObjectId env id); simpl; [|reflexivity].
  destruct (find _ _); reflexivity.
Qed.

(** X5. Lookup by identifier.  A malformed identifier is answered 400
    by [server.js] and 500 by the router; otherwise both answer alike:
    200 with a stored product whose identifier is the one the request
    names (in whatever case it writes the hexadecimal digits), or 404
    when the catalogue has none. *)
Theorem lookup_by_id (id : string) (w : World) :
  (is_ObjectId env id = false ->
   status_of (get_product env id) w = Some 400 /\
   status_of (Router.get_by_id env id) w = Some 500) /\
  (is_ObjectId env id = true ->
   response_of (Router.get_by_id env id) w = response_of (get_product env id) w
   /\
   ((exists p,
       response_of (get_product env id) w = Some (mkResponse 200 (JProduct p))
       /\ In p (products w) /\ product_id p = ObjectId_hex id) \/
    (status_of (get_product env id) w = Some 404 /\
     forall p, In p (products w) -> product_id p <> ObjectId_hex id))).
Proof.
  unfold status_of, response_of.
  rewrite get_product_run, router_get_by_id_run.
  split; intros ->; simpl; [split; reflexivity|].
  split; [destruct (find _ _); reflexivity|].
  destruct (find (has_id id) (products w)) as [p|] eqn:Hf; simpl.
  - left. exists p. split; [reflexivity|]. apply find_has_id. exact Hf.
  - right. split; [reflexivity|]. intros p Hp Hid.
    apply has_id_eq in Hid.
    pose proof (find_none _ _ Hf p Hp) as Hn. congruence.
Qed.

Lemma create_adds_what_it_answers_aux
    (file : option File) (body : ProductBody) (w : World) (doc : Product) :
  response_of (post_product env file body) w =
    Some (mkResponse 201 (JProduct doc)) ->
  products (world_after (post_product env file body) w) =
    (products w ++ [doc])%list /\
  product_id doc = new_ObjectId env (clock w) /\
  exists f, file = Some f /\ image doc = cloudinary_upload env f.
Proof.
  unfold response_of, world_after, post_product, try_catch, bind,
    cloudinary_uploader_upload, parse_specs, Product_new, Product_save,
    send, ret, throw, server_error.
  destruct file as [f|]; simpl; [|discriminate].
  destruct (cloudinary_upload env f) as [url|] eqn:Hup; simpl;
    [|discriminate].
  destruct (_ || _); simpl; [discriminate|].
  destruct (parsed_specs env (b_specs body)) as [sp|]; simpl;
    [|discriminate].
  match goal with
  | |- context [Product_schema_valid ?d] => destruct (Product_schema_valid d)
  end; simpl; [|discriminate].
  intros H. injection H as <-. simpl. split; [reflexivity|].
  split; [reflexivity|].
  exists f. rewrite Hup. split; reflexivity.
Qed.

(** X6. What a creation does.  It answers 201 exactly when it appends a
    product, and the product appended is the one in the response: valid
    for the schema, with the numbers as parsed and the URL the media
    host gave.  Otherwise the catalogue is left as it was.  Users are
    never touched, and without an image file nothing at all happens. *)
Theorem create_adds_what_it_answers
    (file : option File) (body : ProductBody) (w : World) :
  let w' := world_after (post_product env file body) w in
  users w' = users w /\
  (forall doc,
     response_of (post_product env file body) w =
       Some (mkResponse 201 (JProduct doc)) ->
     products w' = (products w ++ [doc])%list /\
     Product_schema_valid doc = true /\
     product_id doc = new_ObjectId env (clock w) /\
     name doc = str (b_name body) /\
     price doc = parseFloat (b_price body) /\
     original_price doc = optional_float (b_originalPrice body) /\
     quantity doc = parseInt (of_param (b_quantity body)) /\
     exists f, file = Some f /\ image doc = cloudinary_upload env f /\
               media w' = (media w ++ [f])%list) /\
  (status_of (post_product env file body) w <> Some 201 ->
   products w' = products w) /\
  (file = None ->
   w' = w /\ status_of (post_product env file body) w = Some 400).
Proof.
  unfold status_of, response_of, world_after, post_product, try_catch, bind,
    cloudinary_uploader_upload, parse_specs, Product_new, Product_save,
    send, ret, throw, server_error. cbv zeta.
  destruct file as [f|]; simpl.
  2:{ repeat split; try discriminate; auto. }
  destruct (cloudinary_upload env f) as [url|] eqn:Hup; simpl.
  2:{ repeat split; try discriminate; auto. }
  destruct (_ || _); simpl.
  { repeat split; try discriminate; auto. }
  destruct (parsed_specs env (b_specs body)) as [sp|]; simpl.
  2:{ repeat split; try discriminate; auto. }
  match goal with
  | |- context [Product_schema_valid ?d] =>
      destruct (Product_schema_valid d) eqn:Hok
  end; simpl.
  - split; [reflexivity|]. split; [|split; [|discriminate]].
    + intros doc Hdoc. injection Hdoc as <-. simpl.
      repeat split; try assumption.
      exists f. rewrite Hup. repeat split.
    + intros H. exfalso. apply H. reflexivity.
  - repeat split; try discriminate; auto.
Qed.

(** X7. Round trip: a product just created is what a lookup by the
    identifier of the response returns, when that identifier is well
    formed and was not in use. *)
Theorem create_then_lookup
    (file : option File) (body : ProductBody) (w : World) (doc : Product) :
  response_of (post_product env file body) w =
    Some (mkResponse 201 (JProduct doc)) ->
  is_ObjectId env (product_id doc) = true ->
  (forall p, In p (products w) -> product_id p <> product_id doc) ->
  response_of (get_product env (product_id doc))
    (world_after (post_product env file body) w) =
    Some (mkResponse 200 (JProduct doc)).
Proof.
  intros Hresp Hid Hfresh.
  destruct (create_adds_what_it_answers_aux file body w doc Hresp)
    as (Hps & Hnew & _).
  unfold response_of. rewrite get_product_run, Hid, Hps. simpl.
  rewrite (find_has_id_snoc _ doc); [reflexivity| |exact Hfresh].
  rewrite Hnew. apply new_ObjectId_written.
Qed.

(** The image an update sets: the URL of the uploaded file when there
    is one, else [req.body.imageUrl]. *)
Lemma put_product_ok (id : string) (file : option File) (body : ProductBody)
    (w : World) (p' : Product) :
  response_of (put_product env id file body) w =
    Some (mkResponse 200 (JProduct p')) ->
  exists p sp,
    let img := match file with
               | Some f => cloudinary_upload env f
               | None => b_imageUrl body
               end in
    parsed_specs env (b_specs body) = Some sp /\
    find (has_id id) (products w) = Some p /\
    is_ObjectId env id = true /\
    p' = apply_update (update_of_body body sp img) p /\
    products (world_after (put_product env id file body) w) =
      replace_first id p' (products w).
Proof.
  unfold response_of, world_after, put_product, try_catch, bind,
    cloudinary_uploader_upload, parse_specs, Product_findByIdAndUpdate,
    id_error, send, ret, throw.
  destruct file as [f|]; simpl.
  - destruct (cloudinary_upload env f) as [url|]; simpl; [|discriminate].
    destruct (parsed_specs env (b_specs body)) as [sp|]; simpl;
      [|discriminate].
    destruct (is_ObjectId env id); simpl; [|discriminate].
    destruct (update_error env _) as [[]|]; simpl; try discriminate.
    destruct (find _ _) as [p|] eqn:Hf; simpl; [|discriminate].
    intros H. injection H as <-. exists p, sp. repeat split.
  - destruct (parsed_specs env (b_specs body)) as [sp|]; simpl;
      [|discriminate].
    destruct (is_ObjectId env id); simpl; [|discriminate].
    destruct (update_error env _) as [[]|]; simpl; try discriminate.
    destruct (find _ _) as [p|] eqn:Hf; simpl; [|discriminate].
    intros H. injection H as <-. exists p, sp. repeat split.
Qed.

Lemma put_product_world (id : string) (file : option File)
    (body : ProductBody) (w : World) :
  products (world_after (put_product env id file body) w) = products w \/
  exists p u,
    find (has_id id) (products w) = Some p /\
    products (world_after (put_product env id file body) w) =
      replace_first id (apply_update u p) (products w).
Proof.
  unfold world_after, put_product, try_catch, bind,
    cloudinary_uploader_upload, parse_specs, Product_findByIdAndUpdate,
    id_error, send, ret, throw.
  destruct file as [f|]; simpl.
  - destruct (cloudinary_upload env f) as [url|]; simpl; auto.
    destruct (parsed_specs env (b_specs body)) as [sp|]; simpl; auto.
    destruct (is_ObjectId env id); simpl; auto.
    destruct (update_error env _) as [[]|]; simpl; auto.
    destruct (find _ _) as [p|] eqn:Hf; simpl; auto.
    right. eexists p, _. split; reflexivity.
  - destruct (parsed_specs env (b_specs body)) as [sp|]; simpl; auto.
    destruct (is_ObjectId env id); simpl; auto.
    destruct (update_error env _) as [[]|]; simpl; auto.
    destruct (find _ _) as [p|] eqn:Hf; simpl; auto.
    right. eexists p, _. split; reflexivity.
Qed.

(** X8. An update never adds, removes or reorders products, and never
    changes an identifier or a creation time, whatever it is given and
    whatever it answers. *)
Theorem update_keeps_catalogue_shape
    (id : string) (file : option File) (body : ProductBody) (w : World) :
  let w' := world_after (put_product env id file body) w in
  product_ids w' = product_ids w /\
  map createdAt (products w') = map createdAt (products w).
Proof.
  cbv zeta. unfold product_ids.
  destruct (put_product_world id file body w)
    as [->|(p & u & Hf & ->)]; [split; reflexivity|].
  split; apply (map_replace_first _ id p _ _ Hf); reflexivity.
Qed.

(** X9. Round trip: after an update answered 200, a lookup by the same
    identifier returns the product of the response. *)
Theorem update_then_lookup
    (id : string) (file : option File) (body : ProductBody) (w : World)
    (p' : Product) :
  response_of (put_product env id file body) w =
    Some (mkResponse 200 (JProduct p')) ->
  response_of (get_product env id)
    (world_after (put_product env id file body) w) =
    Some (mkResponse 200 (JProduct p')).
Proof.
  intros Hr.
  destruct (put_product_ok _ _ _ _ _ Hr) as (p & sp & _ & Hf & Hid & Hp' & Hps).
  unfold response_of. rewrite get_product_run, Hid, Hps. simpl.
  rewrite (find_replace_first id p p' _ Hf); [reflexivity|].
  rewrite Hp'. reflexivity.
Qed.

(** X10. What an update answered 200 writes.  The product returned is
    the stored one with its identifier and creation time, the price and
    the quantity as parsed from the body, and every text field the body
    gives.  The specs are always overwritten: a body without [specs]
    empties them.  The image is the URL of the uploaded file when there
    is one, else [imageUrl] when the body gives it. *)
Theorem update_overwrites
    (id : string) (file : option File) (body : ProductBody) (w : World)
    (p' : Product) :
  response_of (put_product env id file body) w =
    Some (mkResponse 200 (JProduct p')) ->
  exists p,
    find (has_id id) (products w) = Some p /\
    product_id p' = product_id p /\
    createdAt p' = createdAt p /\
    price p' = parseFloat (b_price body) /\
    quantity p' = parseInt (of_param (b_quantity body)) /\
    parsed_specs env (b_specs body) = Some (specs p') /\
    (truthy (b_specs body) = false -> specs p' = []) /\
    (forall x, b_name body = Some x -> name p' = x) /\
    (forall x, b_description body = Some x -> description p' = x) /\
    (forall x, b_category body = Some x -> category p' = x) /\
    (forall x, b_subCategory body = Some x -> subcategory p' = x) /\
    (truthy (b_originalPrice body) = true ->
     original_price p' = Some (parseFloat (b_originalPrice body))) /\
    (forall f, file = Some f ->
       exists url, cloudinary_upload env f = Some url /\ image p' = Some url)
    /\
    (file = None ->
     forall i, b_imageUrl body = Some i -> image p' = Some i).
Proof.
  intros Hr.
  destruct (put_product_ok _ _ _ _ _ Hr) as (p & sp & Hsp & Hf & _ & Hp' & _).
  exists p. rewrite Hp'. simpl. split; [exact Hf|].
  split; [reflexivity|]. split; [reflexivity|].
  split; [reflexivity|]. split; [reflexivity|].
  split; [exact Hsp|].
  split.
  { intros Ht. unfold parsed_specs in Hsp. rewrite Ht in Hsp. congruence. }
  split; [intros x ->; reflexivity|].
  split; [intros x ->; reflexivity|].
  split; [intros x ->; reflexivity|].
  split; [intros x ->; reflexivity|].
  split.
  { intros Ht. unfold optional_float. rewrite Ht. reflexivity. }
  split.
  - intros f ->.
    revert Hr. unfold response_of, put_product, try_catch, bind,
      cloudinary_uploader_upload.
    destruct (cloudinary_upload env f) as [url|]; simpl; [|discriminate].
    intros _. exists url. split; reflexivity.
  - intros -> i ->. reflexivity.
Qed.

(** X11. A deletion answered 200 removes one product, the first whose
    identifier is the one the request names; every product with
    another identifier is untouched.  Afterwards, the identifiers of
    the catalogue being distinct, the identifier is unknown: a lookup
    and a second deletion are answered 404.  A deletion not answered
    200 changes nothing. *)
Theorem delete_removes_one (id : string) (w : World) :
  let w' := world_after (delete_product env id) w in
  (forall p, product_id p <> ObjectId_hex id ->
     (In p (products w') <-> In p (products w))) /\
  (status_of (delete_product env id) w <> Some 200 -> w' = w) /\
  (status_of (delete_product env id) w = Some 200 ->
   (exists p, In p (products w) /\ product_id p = ObjectId_hex id) /\
   S (length (products w')) = length (products w) /\
   (NoDup (product_ids w) ->
    (forall p, In p (products w') -> product_id p <> ObjectId_hex id) /\
    status_of (get_product env id) w' = Some 404 /\
    status_of (delete_product env id) w' = Some 404)).
Proof.
  cbv zeta. unfold status_of, response_of, world_after.
  rewrite delete_product_run.
  destruct (is_ObjectId env id) eqn:Hid; simpl.
  2:{ repeat split; try tauto; discriminate. }
  destruct (find (has_id id) (products w)) as [p|] eqn:Hf; simpl.
  2:{ repeat split; try tauto; discriminate. }
  split; [intros x Hx; apply remove_first_In; exact Hx|].
  split; [intros H; exfalso; apply H; reflexivity|].
  intros _.
  split; [exists p; apply find_has_id; exact Hf|].
  split; [apply (remove_first_length id p); exact Hf|].
  intros Hnd.
  pose proof (remove_first_gone id (products w) Hnd) as Hgone.
  split; [exact Hgone|].
  rewrite get_product_run, delete_product_run. simpl.
  rewrite Hid, (find_has_id_fresh _ _ Hgone). split; reflexivity.
Qed.

(** X12. On the router a request whose [req.user] is absent or is not an
    admin is answered 403 by the three writing routes before anything
    is done: no upload, no write. *)
Theorem router_admin_guard
    (user : option ReqUser) (id : string) (file : option File)
    (body : RouterBody) (w : World) :
  Router.not_admin user = true ->
  let denied :=
    (inr (mkResponse 403 (JMessage "Access denied. Admins only.")), w) in
  Router.post env user file body w = denied /\
  Router.put env user id body w = denied /\
  Router.delete env user id w = denied.
Proof.
  intros Hna. unfold Router.post, Router.put, Router.delete, try_catch.
  rewrite Hna. repeat split.
Qed.

End Catalogue.

(* ================================================================== *)
(** ** Numbers of the pagination                                      *)
(* ================================================================== *)

Lemma Qred_inject_Z (z : Z) : Qred (inject_Z z) = inject_Z z.
Proof. apply Qred_identity. simpl. apply Z.gcd_1_r. Qed.

Lemma sub_Int (a b : Z) : sub (Int a) (Int b) = Int (a - b).
Proof.
  unfold sub, Int. f_equal. rewrite <- (Qred_inject_Z (a - b)).
  apply Qred_complete. unfold Qeq. simpl. lia.
Qed.

Lemma mul_Int (a b : Z) : mul (Int a) (Int b) = Int (a * b).
Proof.
  unfold mul, Int. f_equal. rewrite <- (Qred_inject_Z (a * b)).
  apply Qred_complete. unfold Qeq. simpl. lia.
Qed.

Lemma as_nat_Int (k : Z) : 0 <= k -> as_nat (Int k) = Some (Z.to_nat k).
Proof.
  intros Hk. unfold as_nat, Int, is_integer, is_nonneg, Qis_neg. simpl.
  rewrite Z.div_1_r, Qeq_bool_refl.
  destruct (Z.ltb_spec k 0); [lia|reflexivity].
Qed.

Lemma window_naturals (env : Env) (a n : Z) :
  0 <= a -> 1 <= n ->
  window env (Int a) (Int n) = Some (Z.to_nat a, Some (Z.to_nat n)).
Proof.
  intros Ha Hn. unfold window. rewrite !as_nat_Int by lia.
  destruct (Nat.eqb_spec (Z.to_nat n) 0); [lia|reflexivity].
Qed.

(* ================================================================== *)
(** ** Lists: windows and order                                       *)
(* ================================================================== *)

Lemma firstn_then_next {A} (n m : nat) (l : list A) :
  (firstn n l ++ firstn m (skipn n l))%list = firstn (n + m) l.
Proof.
  revert l. induction n as [|n IH]; intros [|x l]; simpl;
    try reflexivity.
  - rewrite firstn_nil. reflexivity.
  - rewrite IH. reflexivity.
Qed.

Lemma NoDup_firstn {A} (n : nat) (l : list A) :
  NoDup l -> NoDup (firstn n l).
Proof.
  intros H. rewrite <- (firstn_skipn n l) in H.
  apply NoDup_app_remove_r in H. exact H.
Qed.

Lemma NoDup_skipn {A} (n : nat) (l : list A) :
  NoDup l -> NoDup (skipn n l).
Proof.
  intros H. rewrite <- (firstn_skipn n l) in H.
  apply NoDup_app_remove_l in H. exact H.
Qed.

Lemma insert_newest_length (p : Product) (l : list Product) :
  length (insert_newest p l) = S (length l).
Proof.
  induction l as [|x l IH]; simpl; [reflexivity|].
  destruct (createdAt x <=? createdAt p)%nat; simpl; auto.
Qed.

Lemma sort_newest_length (l : list Product) :
  length (sort_newest l) = length l.
Proof.
  induction l as [|x l IH]; simpl; [reflexivity|].
  rewrite insert_newest_length, IH. reflexivity.
Qed.

Lemma insert_newest_NoDup (p : Product) (l : list Product) :
  NoDup l -> ~ In p l -> NoDup (insert_newest p l).
Proof.
  induction l as [|x l IH]; simpl; intros Hnd Hp.
  - constructor; [intros []|constructor].
  - destruct (createdAt x <=? createdAt p)%nat.
    + constructor; [simpl; exact Hp|exact Hnd].
    + inversion Hnd as [|? ? Hx Hl]; subst. constructor.
      * rewrite insert_newest_In. intros [->|H]; auto.
      * apply IH; auto.
Qed.

Lemma sort_newest_NoDup (l : list Product) :
  NoDup l -> NoDup (sort_newest l).
Proof.
  induction l as [|x l IH]; simpl; intros Hnd; [constructor|].
  inversion Hnd as [|? ? Hx Hl]; subst.
  apply insert_newest_NoDup; [apply IH; exact Hl|].
  rewrite sort_newest_In. exact Hx.
Qed.

Lemma insert_newest_sorted (p : Product) (l : list Product) :
  newest_first l -> newest_first (insert_newest p l).
Proof.
  unfold newest_first.
  induction l as [|x l IH]; simpl; intros Hs.
  - repeat constructor.
  - apply StronglySorted_inv in Hs as [Hl Hx].
    destruct (Nat.leb_spec (createdAt x) (createdAt p)) as [Hle|Hgt].
    + constructor; [constructor; assumption|].
      constructor; [exact Hle|].
      eapply Forall_impl; [|exact Hx]. simpl. intros y Hy. lia.
    + constructor; [apply IH; exact Hl|].
      apply Forall_forall. intros y Hy.
      apply insert_newest_In in Hy as [->|Hy]; [lia|].
      rewrite Forall_forall in Hx. apply Hx. exact Hy.
Qed.

Lemma sort_newest_sorted (l : list Product) : newest_first (sort_newest l).
Proof.
  induction l as [|x l IH]; simpl; [constructor|].
  apply insert_newest_sorted. exact IH.
Qed.

Lemma newest_first_skipn (n : nat) (l : list Product) :
  newest_first l -> newest_first (skipn n l).
Proof.
  unfold newest_first. revert l.
  induction n as [|n IH]; intros [|x l] Hs; simpl; auto.
  apply IH. apply StronglySorted_inv in Hs. tauto.
Qed.

Lemma newest_first_firstn (n : nat) (l : list Product) :
  newest_first l -> newest_first (firstn n l).
Proof.
  unfold newest_first. revert l.
  induction n as [|n IH]; intros [|x l] Hs; simpl; try constructor.
  - apply IH. apply StronglySorted_inv in Hs. tauto.
  - apply StronglySorted_inv in Hs as [_ Hx].
    apply Forall_forall. intros y Hy.
    rewrite Forall_forall in Hx. apply Hx.
    rewrite <- (firstn_skipn n l). apply in_or_app. left. exact Hy.
Qed.

(* ================================================================== *)
(** ** Pages of the listing                                           *)
(* ================================================================== *)

Section Pages.

Variable env : Env.

Lemma listed_listing (h : M Response) (w w' : World) (st : Z)
    (found : list Product) (cp tp : JsNum) (total : nat) :
  h w = (inr (mkResponse st (JListing found cp tp total)), w') ->
  listed h w = found.
Proof. unfold listed, response_of. intros ->. reflexivity. Qed.

(** The listing of [server.js] for a page [p >= 1] of size [n >= 1]:
    the window of size [n] after the first [(p - 1) * n] of the
    retained products, newest first. *)
Lemma get_products_window (q : ListQuery) (w : World) (p n : Z)
    (or : option (string -> bool)) :
  parseInt (of_param (query_page q)) = Int p -> 1 <= p ->
  parseInt (with_default 9999 (query_limit q)) = Int n -> 1 <= n ->
  search_filter env (query_search q) = Some or ->
  let all := retained or (category_filter (query_category q)) w in
  get_products env q w =
    (inr (mkResponse 200
            (JListing
               (firstn (Z.to_nat n)
                  (skipn (Z.to_nat ((p - 1) * n)) (sort_newest all)))
               (Int p)
               (Int (- ((- Z.of_nat (length all)) / n)))
               (length all))), w).
Proof.
  intros Hp Hp1 Hn Hn1 Hs. cbv zeta.
  rewrite get_products_run. cbv zeta. rewrite Hs.
  unfold skip_arg. rewrite Hp, Hn, sub_Int, mul_Int.
  unfold Product_find. rewrite window_naturals by nia.
  rewrite ceil_div_int by lia. reflexivity.
Qed.

(** X14. Consecutive pages adjoin: page [p] followed by page [p + 1] is the
    window of size [2 n] starting where page [p] starts, so nothing is
    skipped between them; and when the catalogue has no document twice,
    no product is on both pages. *)
Theorem consecutive_pages_adjoin
    (s1 s2 : string) (lim srch cat : option string) (w : World) (p n : Z)
    (or : option (string -> bool)) :
  parseInt (VStr s1) = Int p -> 1 <= p ->
  parseInt (VStr s2) = Int (p + 1) ->
  parseInt (with_default 9999 lim) = Int n -> 1 <= n ->
  search_filter env srch = Some or ->
  let page1 :=
    listed (get_products env (mkListQuery (Some s1) lim srch cat)) w in
  let page2 :=
    listed (get_products env (mkListQuery (Some s2) lim srch cat)) w in
  (page1 ++ page2)%list =
    firstn (Z.to_nat n + Z.to_nat n)
      (skipn (Z.to_nat ((p - 1) * n))
         (sort_newest (retained or (category_filter cat) w))) /\
  (NoDup (products w) -> NoDup (page1 ++ page2)).
Proof.
  intros H1 Hp H2 Hn Hn1 Hs. cbv zeta.
  unfold listed, response_of.
  rewrite (get_products_window _ w p n or) by (simpl; auto).
  rewrite (get_products_window _ w (p + 1) n or) by (simpl; auto; lia).
  simpl.
  set (all := sort_newest (retained or (category_filter cat) w)).
  replace (Z.to_nat ((p + 1 - 1) * n))
    with (Z.to_nat n + Z.to_nat ((p - 1) * n))%nat by nia.
  rewrite <- skipn_skipn, firstn_then_next.
  split; [reflexivity|].
  intros Hnd. apply NoDup_firstn, NoDup_skipn. unfold all.
  apply sort_newest_NoDup. unfold retained. apply NoDup_filter. exact Hnd.
Qed.

(** X15. The size of a page: [n] products, or what is left of the retained
    products after the pages before it; in particular a page past the
    last one is answered 200 with no product. *)
Theorem page_size (q : ListQuery) (w : World) (p n : Z)
    (or : option (string -> bool)) :
  parseInt (of_param (query_page q)) = Int p -> 1 <= p ->
  parseInt (with_default 9999 (query_limit q)) = Int n -> 1 <= n ->
  search_filter env (query_search q) = Some or ->
  let total := length (retained or (category_filter (query_category q)) w) in
  status_of (get_products env q) w = Some 200 /\
  length (listed (get_products env q) w) =
    Nat.min (Z.to_nat n) (total - Z.to_nat ((p - 1) * n)) /\
  (Z.of_nat total <= (p - 1) * n -> listed (get_products env q) w = []).
Proof.
  intros Hp Hp1 Hn Hn1 Hs. cbv zeta.
  unfold status_of, listed, response_of.
  rewrite (get_products_window q w p n or Hp Hp1 Hn Hn1 Hs). simpl.
  split; [reflexivity|].
  split.
  - rewrite length_firstn, length_skipn, sort_newest_length. reflexivity.
  - intros Hpast. rewrite skipn_all2; [apply firstn_nil|].
    rewrite sort_newest_length. lia.
Qed.

Lemma Product_find_sorted (qy : Query) (s l : JsNum) (w w' : World)
    (found : list Product) :
  Product_find env qy s l true w = (inr found, w') -> newest_first found.
Proof.
  unfold Product_find. destruct (window env s l) as [[k b]|]; [|discriminate].
  intros H. injection H as <- _.
  destruct b; [apply newest_first_firstn|]; apply newest_first_skipn;
    apply sort_newest_sorted.
Qed.

(** X16. Every listing of [server.js] is in order, newest first, whatever the
    request and whatever the driver makes of [skip] and [limit]. *)
Theorem listing_newest_first (q : ListQuery) (w : World) :
  newest_first (listed (get_products env q) w).
Proof.
  unfold listed, response_of. rewrite get_products_run. cbv zeta.
  destruct (search_filter env (query_search q)); simpl; [|constructor].
  destruct (Product_find _ _ _ _ _ w) as [[e|found] w'] eqn:Hf; simpl;
    [constructor|].
  exact (Product_find_sorted _ _ _ _ _ _ Hf).
Qed.

(** X17. Without [limit], the first page has every retained product as long
    as there are at most 9999 of them. *)
Theorem default_limit_returns_everything
    (s : string) (srch cat : option string) (w : World)
    (or : option (string -> bool)) :
  parseInt (VStr s) = Int 1 ->
  search_filter env srch = Some or ->
  Z.of_nat (length (retained or (category_filter cat) w)) <= 9999 ->
  listed (get_products env (mkListQuery (Some s) None srch cat)) w =
    sort_newest (retained or (category_filter cat) w).
Proof.
  intros Hp Hs Hlen.
  erewrite listed_listing
    by (apply (get_products_window _ w 1 9999 or); auto; lia).
  change (Z.to_nat ((1 - 1) * 9999)) with 0%nat. rewrite skipn_O.
  apply firstn_all2. rewrite sort_newest_length. lia.
Qed.

(** X18. The router's listing with neither [page] nor [limit]: page 1 of
    size 9, in the order of the store (there is no sort), with
    [totalPages] the ceiling of [totalProducts / 9]. *)
Theorem router_default_page
    (srch cat : option string) (w : World) (or : option (string -> bool)) :
  search_filter env srch = Some or ->
  let all := retained or (category_filter cat) w in
  response_of (Router.get env (mkListQuery None None srch cat)) w =
    Some (mkResponse 200
            (JListing (firstn 9 all) (Int 1)
               (Int (- ((- Z.of_nat (length all)) / 9))) (length all))).
Proof.
  intros Hs. cbv zeta. unfold response_of.
  rewrite router_get_run. cbv zeta. simpl query_search. rewrite Hs.
  simpl with_default. unfold Router.skip_arg. simpl ToNumber. simpl parseInt.
  rewrite sub_Int, mul_Int. unfold Product_find.
  rewrite window_naturals by lia. rewrite ceil_div_int by lia.
  reflexivity.
Qed.

End Pages.

(* ================================================================== *)
(** ** Reading handlers, categories and the order of routes           *)
(* ================================================================== *)

Section Reading.

Variable env : Env.

(** X19. The handlers that only read leave the stores and the media host as
    they were: login, the two listings, the two lookups by identifier
    and the two lists of categories. *)
Theorem reading_handlers_write_nothing
    (body : Credentials) (q : ListQuery) (id : string) (w : World) :
  world_after (login env body) w = w /\
  world_after (get_products env q) w = w /\
  world_after (Router.get env q) w = w /\
  world_after (get_product env id) w = w /\
  world_after (Router.get_by_id env id) w = w /\
  snd (get_categories w) = w /\
  snd (Router.categories w) = w.
Proof.
  unfold world_after. repeat split.
  - unfold login, try_catch, bind, User_findOne, send, ret.
    destruct (_ || _); simpl; [reflexivity|].
    destruct (find _ _) as [u|]; simpl; [|reflexivity].
    destruct (negb _); reflexivity.
  - rewrite get_products_run. cbv zeta.
    destruct (search_filter env (query_search q)); simpl; [|reflexivity].
    destruct (Product_find _ _ _ _ _ w) as [[e|found] w'] eqn:Hf; simpl;
      revert Hf; unfold Product_find; destruct (window _ _ _) as [[? ?]|];
      intros H; inversion H; reflexivity.
  - rewrite router_get_run. cbv zeta.
    destruct (search_filter env (query_search q)); simpl; [|reflexivity].
    destruct (Product_find _ _ _ _ _ w) as [[e|found] w'] eqn:Hf; simpl;
      revert Hf; unfold Product_find; destruct (window _ _ _) as [[? ?]|];
      intros H; inversion H; reflexivity.
  - rewrite get_product_run.
    destruct (negb _); [reflexivity|]. destruct (find _ _); reflexivity.
  - rewrite router_get_by_id_run.
    destruct (negb _); [reflexivity|]. destruct (find _ _); reflexivity.
Qed.

(** X20. The categories route answers 200 with each category of the
    catalogue once and no other string, on both routers.  Filtering
    the listing by one of them, other than the empty string and the
    word [All], gives a first page that is not empty and has products
    of this category only. *)
Theorem categories_listed_once (w : World) :
  exists cs,
    array_response_of get_categories w =
      Some (mkArrayResponse 200 (inl cs)) /\
    array_response_of Router.categories w =
      Some (mkArrayResponse 200 (inl cs)) /\
    NoDup cs /\
    (forall c, In c cs <-> exists p, In p (products w) /\ category p = c) /\
    (forall c, In c cs -> c <> "" -> c <> "All" ->
       let page :=
         get_products env (mkListQuery (Some "1") None None (Some c)) in
       status_of page w = Some 200 /\
       listed page w <> [] /\
       forall p, In p (listed page w) -> category p = c).
Proof.
  exists (nodup string_dec (map category (products w))).
  split; [reflexivity|]. split; [reflexivity|].
  split; [apply NoDup_nodup|].
  assert (Hin : forall c,
             In c (nodup string_dec (map category (products w))) <->
             exists p, In p (products w) /\ category p = c).
  { intros c. rewrite nodup_In, in_map_iff. split.
    - intros (p & Hc & Hp). exists p. auto.
    - intros (p & Hp & Hc). exists p. auto. }
  split; [exact Hin|].
  intros c Hc Hne Hall. cbv zeta.
  pose proof (get_products_window env
                (mkListQuery (Some "1") None None (Some c)) w 1 9999 None
                eq_refl ltac:(lia) eq_refl ltac:(lia) eq_refl) as Hrun.
  cbv zeta in Hrun. simpl query_category in Hrun.
  rewrite (category_filter_given c Hne Hall) in Hrun.
  rewrite (listed_listing _ _ _ _ _ _ _ _ Hrun).
  split; [unfold status_of, response_of; rewrite Hrun; reflexivity|].
  change (Z.to_nat ((1 - 1) * 9999)) with 0%nat. rewrite skipn_O.
  split.
  - apply Hin in Hc as (p & Hp & Hcat).
    assert (Hret : In p (sort_newest (retained None (Some c) w))).
    { apply sort_newest_In. unfold retained. apply filter_In.
      split; [exact Hp|]. unfold matches. simpl.
      apply String.eqb_eq. exact Hcat. }
    assert (Hk : Z.to_nat 9999 = S (Z.to_nat 9998)) by lia.
    rewrite Hk. remember (Z.to_nat 9998) as k.
    destruct (sort_newest (retained None (Some c) w)); [contradiction|].
    discriminate.
  - intros p Hp. apply In_firstn_inv in Hp.
    apply (proj1 (sort_newest_In _ _)) in Hp.
    unfold retained in Hp. apply filter_In in Hp as [_ Hm].
    unfold matches in Hm. simpl in Hm. apply String.eqb_eq. exact Hm.
Qed.

(** X21. On the router the route [/categories] is registered after [/:id],
    which takes every one-segment path: removing the categories route
    changes the answer to no request, and [GET /categories] is a lookup
    of the product whose identifier is [categories], answered 500 as
    that is no identifier. *)
Theorem router_categories_shadowed (q : ListQuery) :
  (forall path,
     Router.dispatch (Router.get_routes env q) path =
     Router.dispatch (firstn 2 (Router.get_routes env q)) path) /\
  Router.dispatch (Router.get_routes env q) ["categories"] =
    Some (Router.plain (Router.get_by_id env "categories")) /\
  (is_ObjectId env "categories" = false ->
   forall w,
     Router.plain (Router.get_by_id env "categories") w =
       (inr (Router.Plain
               (mkResponse 500 (JError "Server Error" CastError))), w)).
Proof.
  split; [|split].
  - intros [|seg [|seg' path]]; simpl; try reflexivity.
    destruct (String.eqb seg "") eqn:He; [|reflexivity].
    apply String.eqb_eq in He. subst seg. reflexivity.
  - reflexivity.
  - intros Hid w. unfold Router.plain, bind.
    rewrite router_get_by_id_run, Hid. reflexivity.
Qed.

End Reading.

(* ================================================================== *)
(** ** The specs of the router: [split(',')] and [trim()]             *)
(* ================================================================== *)


















(* ================================================================== *)
(** ** Uploaded images                                                *)
(* ================================================================== *)

Section Uploads.

Variable env : Env.

(** X13. Once the media host has accepted the image of a request, the
    image is on the media host whatever becomes of the request: a
    creation or an update that then fails leaves it there.  This holds
    for the three handlers that upload. *)
Theorem uploaded_image_stays
    (f : File) (url : string) (id : string) (body : ProductBody)
    (rbody : RouterBody) (user : option ReqUser) (w : World) :
  cloudinary_upload env f = Some url ->
  media (world_after (post_product env (Some f) body) w)
    = (media w ++ [f])%list /\
  media (world_after (put_product env id (Some f) body) w)
    = (media w ++ [f])%list /\
  (Router.not_admin user = false ->
   media (world_after (Router.post env user (Some f) rbody) w)
     = (media w ++ [f])%list /\
   (status_of (Router.post env user (Some f) rbody) w = Some 201 \/
    status_of (Router.post env user (Some f) rbody) w = Some 500)).
Proof.
  intros Hup. split; [|split].
  - unfold world_after, post_product, try_catch, bind,
      cloudinary_uploader_upload, parse_specs, Product_new, Product_save,
      send, ret, throw, server_error.
    rewrite Hup. simpl.
    destruct (_ || _); simpl; [reflexivity|].
    destruct (parsed_specs env (b_specs body)); simpl; [|reflexivity].
    match goal with
    | |- context [Product_schema_valid ?d] => destruct (Product_schema_valid d)
    end; reflexivity.
  - unfold world_after, put_product, try_catch, bind,
      cloudinary_uploader_upload, parse_specs, Product_findByIdAndUpdate,
      id_error, send, ret, throw.
    rewrite Hup. simpl.
    destruct (parsed_specs env (b_specs body)); simpl; [|reflexivity].
    destruct (is_ObjectId env id); simpl; [|reflexivity].
    destruct (update_error env _) as [[]|]; simpl; try reflexivity.
    destruct (find _ _); reflexivity.
  - intros Hadmin.
    unfold status_of, response_of, world_after, Router.post, try_catch, bind,
      cloudinary_uploader_upload, Product_new, Product_save, send, ret,
      server_error.
    rewrite Hadmin, Hup. simpl.
    match goal with
    | |- context [Product_schema_valid ?d] => destruct (Product_schema_valid d)
    end; simpl; auto.
Qed.

End Uploads.

(* ================================================================== *)
(** ** Further theorems on concrete requests                          *)
(* ================================================================== *)

Lemma register_keeps_usernames_unique_witness :
  NoDup (usernames Demo.world) /\
  NoDup (usernames
           (world_after (register Demo.env Demo.bob_registers) Demo.world)).
Proof.
  assert (H : NoDup (usernames Demo.world)).
  { repeat constructor. simpl. tauto. }
  split; [exact H|].
  apply (register_keeps_usernames_unique Demo.env Demo.bob_registers
           Demo.world H).
Defined.

Lemma missing_credentials_rejected_witness :
  validated (mkCredentials (Some "alice") (Some "") None) = false /\
  status_of (register Demo.env (mkCredentials (Some "alice") (Some "") None))
    Demo.world = Some 400 /\
  status_of (login Demo.env (mkCredentials (Some "alice") (Some "") None))
    Demo.world = Some 400.
Proof.
  split; [reflexivity|].
  destruct (missing_credentials_rejected Demo.env
              (mkCredentials (Some "alice") (Some "") None) Demo.world
              eq_refl) as [Hr Hl].
  unfold status_of, response_of. rewrite Hr, Hl. split; reflexivity.
Defined.

Lemma register_then_login_witness :
  status_of (register Demo.env Demo.bob_registers) Demo.world = Some 201 /\
  response_of (login Demo.env Demo.bob_registers)
    (world_after (register Demo.env Demo.bob_registers) Demo.world) =
    Some (mkResponse 200
            (JLogin "Login successful"
               "jwt.000000000000000000000008.bob.user" "user")).
Proof.
  split; [reflexivity|].
  apply (register_then_login Demo.env Demo.bob_registers Demo.world);
    reflexivity.
Defined.

Lemma lookup_by_id_witness :
  (status_of (get_product Demo.env "bad-id") Demo.world = Some 400 /\
   status_of (Router.get_by_id Demo.env "bad-id") Demo.world = Some 500) /\
  response_of (Router.get_by_id Demo.env Demo.visor_id) Demo.shelf =
    response_of (get_product Demo.env Demo.visor_id) Demo.shelf /\
  exists p,
    response_of (get_product Demo.env Demo.visor_id) Demo.shelf =
      Some (mkResponse 200 (JProduct p)) /\
    product_id p = "00000000000000000000000a".
Proof.
  split.
  { apply (lookup_by_id Demo.env "bad-id" Demo.world). reflexivity. }
  destruct (lookup_by_id Demo.env Demo.visor_id Demo.shelf) as [_ Hgood].
  destruct (Hgood eq_refl) as [Hsame [(p & Hp & _ & Hid)|[Hnone _]]].
  - split; [exact Hsame|]. exists p. split; [exact Hp|exact Hid].
  - vm_compute in Hnone. discriminate Hnone.
Defined.

Lemma create_adds_what_it_answers_witness :
  exists doc,
    response_of (post_product Demo.env (Some Demo.photo) Demo.apron)
      Demo.world = Some (mkResponse 201 (JProduct doc)) /\
    products
      (world_after (post_product Demo.env (Some Demo.photo) Demo.apron)
         Demo.world) = (products Demo.world ++ [doc])%list /\
    price doc = Fin (25 # 2).
Proof.
  eexists. split; [reflexivity|].
  destruct (create_adds_what_it_answers Demo.env (Some Demo.photo)
              Demo.apron Demo.world) as (_ & Hdoc & _).
  destruct (Hdoc _ eq_refl) as (Hps & _ & _ & _ & Hprice & _).
  split; [exact Hps|exact Hprice].
Defined.

Lemma create_then_lookup_witness :
  exists doc,
    response_of (post_product Demo.env (Some Demo.photo) Demo.apron)
      Demo.world = Some (mkResponse 201 (JProduct doc)) /\
    response_of (get_product Demo.env (product_id doc))
      (world_after (post_product Demo.env (Some Demo.photo) Demo.apron)
         Demo.world) = Some (mkResponse 200 (JProduct doc)).
Proof.
  eexists. split; [reflexivity|].
  apply (create_then_lookup Demo.env (Some Demo.photo) Demo.apron Demo.world).
  - reflexivity.
  - reflexivity.
  - simpl. intros p Hp.
    repeat (destruct Hp as [<-|Hp]; [discriminate|]). contradiction.
Defined.

Lemma update_then_lookup_witness :
  exists p',
    response_of
      (put_product Demo.env (Demo.new_ObjectId 2) None Demo.reprice)
      Demo.world = Some (mkResponse 200 (JProduct p')) /\
    response_of (get_product Demo.env (Demo.new_ObjectId 2))
      (world_after
         (put_product Demo.env (Demo.new_ObjectId 2) None Demo.reprice)
         Demo.world) = Some (mkResponse 200 (JProduct p')).
Proof.
  eexists. split; [reflexivity|].
  apply (update_then_lookup Demo.env (Demo.new_ObjectId 2) None Demo.reprice
           Demo.world).
  reflexivity.
Defined.

Lemma update_overwrites_witness :
  exists p' p,
    response_of
      (put_product Demo.env (Demo.new_ObjectId 2) None Demo.reprice)
      Demo.world = Some (mkResponse 200 (JProduct p')) /\
    find (has_id (Demo.new_ObjectId 2)) (products Demo.world) = Some p /\
    product_id p' = product_id p /\
    price p' = Fin (19 # 2) /\ quantity p' = Int 30 /\ specs p' = [].
Proof.
  eexists.
  destruct (update_overwrites Demo.env (Demo.new_ObjectId 2) None
              Demo.reprice Demo.world _ eq_refl)
    as (p & Hf & Hid & _ & Hprice & Hquantity & _ & Hspecs & _).
  exists p. split; [reflexivity|]. split; [exact Hf|].
  split; [exact Hid|]. split; [exact Hprice|]. split; [exact Hquantity|].
  apply Hspecs. reflexivity.
Defined.

Lemma delete_removes_one_witness :
  status_of (delete_product Demo.env Demo.visor_id) Demo.shelf = Some 200 /\
  products (world_after (delete_product Demo.env Demo.visor_id) Demo.shelf)
  = [Demo.glove 11 "Cap" "Gowns"] /\
  status_of (get_product Demo.env Demo.visor_id)
    (world_after (delete_product Demo.env Demo.visor_id) Demo.shelf)
  = Some 404 /\
  status_of (delete_product Demo.env Demo.visor_id)
    (world_after (delete_product Demo.env Demo.visor_id) Demo.shelf)
  = Some 404.
Proof.
  split; [reflexivity|]. split; [reflexivity|].
  destruct (delete_removes_one Demo.env Demo.visor_id Demo.shelf)
    as (_ & _ & Hdel).
  destruct (Hdel eq_refl) as (_ & _ & Hgone).
  assert (Hids : nodup string_dec (product_ids Demo.shelf)
                 = product_ids Demo.shelf) by (vm_compute; reflexivity).
  apply Hgone. rewrite <- Hids. apply NoDup_nodup.
Defined.

Lemma router_admin_guard_witness :
  status_of (Router.post Demo.env None (Some Demo.photo)
               Demo.empty_router_body) Demo.world = Some 403 /\
  world_after (Router.delete Demo.env None (Demo.new_ObjectId 2)) Demo.world
  = Demo.world.
Proof.
  destruct (router_admin_guard Demo.env None (Demo.new_ObjectId 2)
              (Some Demo.photo) Demo.empty_router_body Demo.world eq_refl)
    as (Hpost & _ & Hdelete).
  unfold status_of, response_of, world_after. rewrite Hpost, Hdelete.
  split; reflexivity.
Defined.

Lemma uploaded_image_stays_witness :
  status_of (post_product Demo.env (Some Demo.photo) Demo.priced_abc)
    Demo.world = Some 500 /\
  media (world_after (post_product Demo.env (Some Demo.photo) Demo.priced_abc)
           Demo.world) = [Demo.photo].
Proof.
  split; [reflexivity|].
  destruct (uploaded_image_stays Demo.env Demo.photo
              "https://media.example/png-bytes" "bad-id" Demo.priced_abc
              Demo.empty_router_body Demo.admin Demo.world eq_refl)
    as [Hpost _].
  exact Hpost.
Defined.

Lemma consecutive_pages_adjoin_witness :
  (listed (get_products Demo.env (Demo.page_of "1")) Demo.world ++
   listed (get_products Demo.env (Demo.page_of "2")) Demo.world)%list =
    [Demo.glove 7 "Glove M" "Gloves"; Demo.glove 6 "Glove S" "Gloves";
     Demo.glove 5 "Gown" "Gowns"; Demo.glove 4 "Glove XL" "Gloves"] /\
  NoDup
    (listed (get_products Demo.env (Demo.page_of "1")) Demo.world ++
     listed (get_products Demo.env (Demo.page_of "2")) Demo.world).
Proof.
  destruct (consecutive_pages_adjoin Demo.env "1" "2" (Some "2") None None
              Demo.world 1 2 None eq_refl ltac:(lia) eq_refl eq_refl
              ltac:(lia) eq_refl) as [Hcat Hnodup].
  split; [exact Hcat|].
  apply Hnodup. repeat constructor; simpl; intuition discriminate.
Defined.

Lemma page_size_witness :
  status_of (get_products Demo.env (Demo.page_of "9")) Demo.world = Some 200 /\
  length (listed (get_products Demo.env (Demo.page_of "4")) Demo.world)
  = 1%nat /\
  listed (get_products Demo.env (Demo.page_of "9")) Demo.world = [].
Proof.
  destruct (page_size Demo.env (Demo.page_of "9") Demo.world 9 2 None
              eq_refl ltac:(lia) eq_refl ltac:(lia) eq_refl)
    as (Hst & _ & Hpast).
  destruct (page_size Demo.env (Demo.page_of "4") Demo.world 4 2 None
              eq_refl ltac:(lia) eq_refl ltac:(lia) eq_refl)
    as (_ & Hlen & _).
  split; [exact Hst|]. split; [exact Hlen|].
  apply Hpast. simpl. lia.
Defined.

Lemma default_limit_returns_everything_witness :
  listed (get_products Demo.env (mkListQuery (Some "1") None None None))
    Demo.world = sort_newest (products Demo.world).
Proof.
  apply (default_limit_returns_everything Demo.env "1" None None Demo.world
           None); [reflexivity|reflexivity|simpl; lia].
Defined.

Lemma router_default_page_witness :
  response_of (Router.get Demo.env (mkListQuery None None None None))
    Demo.world =
    Some (mkResponse 200
            (JListing (products Demo.world) (Int 1) (Int 1) 7)).
Proof.
  apply (router_default_page Demo.env None None Demo.world None).
  reflexivity.
Defined.

Lemma categories_listed_once_witness :
  exists cs,
    array_response_of get_categories Demo.world =
      Some (mkArrayResponse 200 (inl cs)) /\
    In "Gloves" cs /\
    listed
      (get_products Demo.env
         (mkListQuery (Some "1") None None (Some "Gloves"))) Demo.world <> [].
Proof.
  destruct (categories_listed_once Demo.env Demo.world)
    as (cs & Hserver & _ & _ & Hin & Hpage).
  exists cs. split; [exact Hserver|].
  assert (Hg : In "Gloves" cs).
  { apply Hin. exists (Demo.glove 1 "abc glove" "Gloves").
    split; [left; reflexivity|reflexivity]. }
  split; [exact Hg|].
  apply (Hpage "Gloves" Hg); discriminate.
Defined.

Lemma router_categories_shadowed_witness :
  is_ObjectId Demo.env "categories" = false /\
  Router.dispatch (Router.get_routes Demo.env Demo.gloves_page2)
    ["categories"] =
    Some (Router.plain (Router.get_by_id Demo.env "categories")) /\
  Router.plain (Router.get_by_id Demo.env "categories") Demo.world =
    (inr (Router.Plain (mkResponse 500 (JError "Server Error" CastError))),
     Demo.world).
Proof.
  split; [reflexivity|].
  destruct (router_categories_shadowed Demo.env Demo.gloves_page2)
    as (_ & Hroute & Hanswer).
  split; [exact Hroute|]. apply Hanswer. reflexivity.
Defined.

